(** * Verification of the SeekWell risk engine and case lifecycle

  Shallow embedding of
  - [backend/ai/models/model_config.py] ([get_risk_level],
    [get_confidence_level], [needs_professional_review],
    [get_recommendations], [RISK_ASSESSMENT_CONFIG], [RECOMMENDATIONS]),
  - [backend/ai/services/prediction_service.py]
    ([SkinLesionPredictor.predict_lesion], [_assess_risk],
    [_get_confidence_level], [_generate_recommendations]),
  - [backend/ai/models/skin_cancer_classifier.py] ([predict],
    [analyze_lesion], [_get_follow_up_days]),
  - [backend/ai/services/image_processing.py] ([validate_image]),
  - [backend/app/services/ai_integration.py] ([predict_skin_lesion]),
  - [backend/app/routers/cadre.py], [backend/app/routers/skin_lesions.py],
    [backend/app/crud.py] and [backend/app/services/lesion_service.py]
    (case status, reviews, consultations, review listings, statistics,
    history and the display of an analysis).

  Confidence scores are Python floats; they are modelled as exact
  rationals [Q].  The thresholds 0.3, 0.4, 0.5, 0.6, 0.8 are taken as the
  decimal rationals they denote. *)

From Stdlib Require Import QArith Lqa Qround ZArith String Ascii Bool List Sorted Permutation Lia.
From stdpp Require Import base gmap strings list.

Open Scope string_scope.

(** ** Python helpers on strings *)
Module Py.

(** [c.lower()] on one ASCII character. *)
Definition lower_char (c : ascii) : ascii :=
  let n := nat_of_ascii c in
  if (65 <=? n)%nat && (n <=? 90)%nat then ascii_of_nat (n + 32) else c.

(** [s.lower()] (ASCII letters; other characters are left as they are). *)
Fixpoint lower (s : string) : string :=
  match s with
  | EmptyString => EmptyString
  | String c s' => String (lower_char c) (lower s')
  end.

(** [sub in s] for strings: [sub] occurs at some position of [s]. *)
Fixpoint contains (sub s : string) : bool :=
  String.prefix sub s ||
  match s with
  | EmptyString => false
  | String _ s' => contains sub s'
  end.

(** Truthiness of an [Optional[str]]: [None] and [""] are falsy. *)
Definition truthy (o : option string) : bool :=
  match o with
  | None => false
  | Some s => negb (String.eqb s "")
  end.

(** [x < y] on scores. *)
Definition Qltb (x y : Q) : bool := negb (Qle_bool y x).

End Py.

(** ** [model_config.py] *)
Module ModelConfig.

(** The risk level strings used by both engines. *)
Inductive risk := LOW | MEDIUM | HIGH | URGENT | UNCERTAIN.

Definition risk_eqb (a b : risk) : bool :=
  match a, b with
  | LOW, LOW | MEDIUM, MEDIUM | HIGH, HIGH | URGENT, URGENT
  | UNCERTAIN, UNCERTAIN => true
  | _, _ => false
  end.

(** The confidence level strings. *)
Inductive confidence_level := C_VERY_LOW | C_LOW | C_MEDIUM | C_HIGH.

(** [RISK_LEVELS]: the label catalog. *)
Definition RISK_LEVELS : list (string * risk) :=
  [ ("ACK (Actinic keratoses)", MEDIUM);
    ("BCC (Basal cell carcinoma)", HIGH);
    ("MEL (Melanoma)", URGENT);
    ("NEV (Nevus/Mole)", LOW);
    ("SCC (Squamous cell carcinoma)", HIGH);
    ("SEK (Seborrheic keratosis)", LOW) ].

(** [d.get(k, default)] on a dict with string keys. *)
Fixpoint dict_get {V} (k : string) (d : list (string * V)) (default : V) : V :=
  match d with
  | [] => default
  | (k', v) :: d' => if String.eqb k k' then v else dict_get k d' default
  end.

(** [CONFIDENCE_THRESHOLDS]. *)
Definition HIGH_CONFIDENCE : Q := 8 # 10.
Definition MEDIUM_CONFIDENCE : Q := 6 # 10.
Definition LOW_CONFIDENCE : Q := 4 # 10.

(** [RISK_ASSESSMENT_CONFIG]. *)
Definition urgent_threshold : Q := 3 # 10.
Definition professional_review_threshold : Q := 5 # 10.
Definition high_risk_regions : list string :=
  ["face"; "neck"; "hands"; "feet"; "genitals"].
Definition follow_up_days : list (risk * Z) :=
  [(URGENT, 1%Z); (HIGH, 7%Z); (MEDIUM, 30%Z); (LOW, 90%Z)].

(** [body_region and body_region.lower() in high_risk_regions] *)
Definition in_high_risk_region (body_region : option string) : bool :=
  Py.truthy body_region &&
  match body_region with
  | Some s => existsb (String.eqb (Py.lower s)) high_risk_regions
  | None => false
  end.

(** [get_risk_level(predicted_class, confidence, body_region)]. *)
Definition get_risk_level (predicted_class : string) (confidence : Q)
    (body_region : option string) : risk :=
  let base_risk := dict_get predicted_class RISK_LEVELS UNCERTAIN in
  let base_risk :=
    if in_high_risk_region body_region then
      match base_risk with
      | LOW => MEDIUM
      | MEDIUM => HIGH
      | r => r
      end
    else base_risk in
  if Py.Qltb confidence LOW_CONFIDENCE then UNCERTAIN
  else if Py.contains "MEL" predicted_class
          && Py.Qltb urgent_threshold confidence then URGENT
  else base_risk.

(** [needs_professional_review(predicted_class, confidence)]. *)
Definition needs_professional_review (predicted_class : string)
    (confidence : Q) : bool :=
  if existsb (fun t => Py.contains t predicted_class) ["MEL"; "BCC"; "SCC"]
  then true
  else Py.Qltb confidence professional_review_threshold.

(** [SkinCancerClassifier._get_follow_up_days(risk_level)]:
    [RISK_ASSESSMENT_CONFIG["follow_up_days"].get(risk_level, 30)]. *)
Fixpoint risk_dict_get (k : risk) (d : list (risk * Z)) (default : Z) : Z :=
  match d with
  | [] => default
  | (k', v) :: d' => if risk_eqb k k' then v else risk_dict_get k d' default
  end.

Definition get_follow_up_days (risk_level : risk) : Z :=
  risk_dict_get risk_level follow_up_days 30.

End ModelConfig.

Import ModelConfig.

(** ** [prediction_service.py] *)
Module PredictionService.

(** The dictionary returned by [_assess_risk]. *)
Record risk_assessment := {
  risk_level : risk;
  confidence_level : confidence_level;
  needs_professional_review : bool;
  needs_urgent_attention : bool;
  base_risk : risk;
  confidence_score : Q;
  predicted_class : string
}.

(** [SkinLesionPredictor._get_confidence_level]. *)
Definition get_confidence_level (confidence : Q) : ModelConfig.confidence_level :=
  if negb (Py.Qltb confidence HIGH_CONFIDENCE) then C_HIGH
  else if negb (Py.Qltb confidence MEDIUM_CONFIDENCE) then C_MEDIUM
  else if negb (Py.Qltb confidence LOW_CONFIDENCE) then C_LOW
  else C_VERY_LOW.

(** The method's local [high_risk_regions] list. *)
Definition high_risk_regions : list string :=
  ["face"; "neck"; "hands"; "feet"; "genitals"].

(** [body_region and body_region.lower() in high_risk_regions], with the
    method's local list. *)
Definition in_high_risk_region (body_region : option string) : bool :=
  Py.truthy body_region &&
  match body_region with
  | Some s => existsb (String.eqb (Py.lower s)) high_risk_regions
  | None => false
  end.

Definition is_high_or_urgent (r : risk) : bool :=
  match r with HIGH | URGENT => true | _ => false end.

(** [SkinLesionPredictor._assess_risk(prediction_result, body_region)],
    with [label] and [confidence] read from
    [prediction_result["top_prediction"]]. *)
Definition assess_risk (label : string) (confidence : Q)
    (body_region : option string) : risk_assessment :=
  let base_risk := dict_get label RISK_LEVELS MEDIUM in
  let '(adjusted_risk, needs_review) :=
    if Py.Qltb confidence LOW_CONFIDENCE then (UNCERTAIN, true)
    else if Py.Qltb confidence MEDIUM_CONFIDENCE then (base_risk, true)
    else (base_risk, is_high_or_urgent base_risk) in
  let '(adjusted_risk, needs_review) :=
    if in_high_risk_region body_region
    then ((match adjusted_risk with LOW => MEDIUM | r => r end), true)
    else (adjusted_risk, needs_review) in
  {| risk_level := adjusted_risk;
     confidence_level := get_confidence_level confidence;
     needs_professional_review := needs_review;
     needs_urgent_attention := risk_eqb adjusted_risk URGENT;
     base_risk := base_risk;
     confidence_score := confidence;
     predicted_class := label |}.

End PredictionService.

(** ** Database rows ([backend/app/models.py]) and the lifecycle code *)
Module Db.

(** A row of [skin_lesion_images] (the columns the lifecycle uses). *)
Record lesion := mk_lesion {
  upload_timestamp : nat;
  body_region : option string;
  needs_professional_review : bool;
  reviewed_by_cadre : option nat;
  reviewed_by_doctor : option nat;
  status : string
}.

(** A row of [ai_assessments] (one per image, [uselist=False]). *)
Record ai_assessment := mk_ai_assessment {
  risk_level : risk;
  created_at : nat
}.

(** A row of [cadre_reviews]. *)
Record cadre_review := mk_cadre_review {
  review_image_id : nat;
  cadre_id : nat;
  review_notes : string;
  agrees_with_ai : option bool;
  escalate_to_doctor : bool;
  local_recommendations : option string
}.

(** A row of [doctor_consultations]. *)
Record doctor_consultation := mk_doctor_consultation {
  consultation_image_id : nat;
  doctor_id : nat;
  diagnosis : string;
  treatment_plan : option string;
  urgency_level : option string;
  requires_specialist : bool;
  follow_up_days : option Z
}.

(** The tables, keyed by [image_id] where the key is the primary key or
    the one-to-one foreign key; review and consultation tables in
    insertion order. *)
Record db := mk_db {
  lesions : gmap nat lesion;
  ai_assessments : gmap nat ai_assessment;
  cadre_reviews : list cadre_review;
  doctor_consultations : list doctor_consultation
}.

Definition set_lesions (d : db) (m : gmap nat lesion) : db :=
  mk_db m (ai_assessments d) (cadre_reviews d) (doctor_consultations d).

Definition set_status (s : string) (l : lesion) : lesion :=
  mk_lesion (upload_timestamp l) (body_region l) (needs_professional_review l)
    (reviewed_by_cadre l) (reviewed_by_doctor l) s.

Definition set_reviewed_by_cadre (u : nat) (l : lesion) : lesion :=
  mk_lesion (upload_timestamp l) (body_region l) (needs_professional_review l)
    (Some u) (reviewed_by_doctor l) (status l).

Definition set_reviewed_by_doctor (u : nat) (l : lesion) : lesion :=
  mk_lesion (upload_timestamp l) (body_region l) (needs_professional_review l)
    (reviewed_by_cadre l) (Some u) (status l).

Definition set_needs_professional_review (b : bool) (l : lesion) : lesion :=
  mk_lesion (upload_timestamp l) (body_region l) b
    (reviewed_by_cadre l) (reviewed_by_doctor l) (status l).

(** Number of [cadre_reviews] rows of one image. *)
Definition count_reviews (i : nat) (d : db) : nat :=
  length (filter (fun r => review_image_id r = i) (cadre_reviews d)).


Definition status_of (i : nat) (d : db) : option string :=
  status <$> lesions d !! i.

End Db.

Import Db.

(** ** [crud.py] *)
Module Crud.

(** [schemas.CadreReviewCreate] / the router's [review_data]. *)
Record cadre_review_create := mk_cadre_review_create {
  rc_review_notes : string;
  rc_agrees_with_ai : option bool;
  rc_escalate_to_doctor : bool;
  rc_local_recommendations : option string
}.

(** [schemas.DoctorConsultationCreate]. *)
Record doctor_consultation_create := mk_doctor_consultation_create {
  dc_image_id : nat;
  dc_diagnosis : string;
  dc_treatment_plan : option string;
  dc_urgency_level : option string;
  dc_requires_specialist : bool;
  dc_follow_up_days : option Z
}.

(** Truthiness of an [Optional[int]]. *)
Definition int_truthy (o : option nat) : bool :=
  match o with Some n => negb (n =? 0)%nat | None => false end.

(** [create_skin_lesion_image]: an insert whose primary key is already
    taken fails with an integrity error and changes nothing. *)
Definition create_skin_lesion_image (image_id : nat) (l : lesion) (d : db)
    : option lesion * db :=
  match lesions d !! image_id with
  | Some _ => (None, d)
  | None => (Some l, set_lesions d (<[image_id := l]> (lesions d)))
  end.

(** [update_skin_lesion_status(db, image_id, status, reviewed_by)]. *)
Definition update_skin_lesion_status (image_id : nat) (s : string)
    (reviewed_by : option nat) (d : db) : option lesion * db :=
  match lesions d !! image_id with
  | Some l =>
      let l := set_status s l in
      let l :=
        match reviewed_by with
        | Some u =>
            if int_truthy reviewed_by
               && existsb (String.eqb s) ["reviewed"; "completed"]
            then set_reviewed_by_cadre u l else l
        | None => l
        end in
      (Some l, set_lesions d (<[image_id := l]> (lesions d)))
  | None => (None, d)
  end.

(** [create_cadre_review(db, review_data, cadre_id)]. *)
Definition create_cadre_review (image_id : nat) (rd : cadre_review_create)
    (cadre_id : nat) (d : db) : cadre_review * db :=
  let r := mk_cadre_review image_id cadre_id (rc_review_notes rd)
             (rc_agrees_with_ai rd) (rc_escalate_to_doctor rd)
             (rc_local_recommendations rd) in
  let d := mk_db (lesions d) (ai_assessments d) (cadre_reviews d ++ [r])
             (doctor_consultations d) in
  (r, snd (update_skin_lesion_status image_id "reviewed" (Some cadre_id) d)).

(** [create_doctor_consultation(db, consultation_data, doctor_id)]. *)
Definition create_doctor_consultation (cd : doctor_consultation_create)
    (doctor_id : nat) (d : db) : doctor_consultation * db :=
  let c := mk_doctor_consultation (dc_image_id cd) doctor_id (dc_diagnosis cd)
             (dc_treatment_plan cd) (dc_urgency_level cd)
             (dc_requires_specialist cd) (dc_follow_up_days cd) in
  let d := mk_db (lesions d) (ai_assessments d) (cadre_reviews d)
             (doctor_consultations d ++ [c]) in
  match lesions d !! dc_image_id cd with
  | Some l =>
      let l := set_status "completed" (set_reviewed_by_doctor doctor_id l) in
      (c, set_lesions d (<[dc_image_id cd := l]> (lesions d)))
  | None => (c, d)
  end.

End Crud.

Import Crud.

(** ** The HTTP handlers *)
Module Routers.

(** What a handler answers. *)
Inductive response :=
| Review_submitted (status : string) (escalated : bool)
| Consultation_submitted
| Http_error (code : nat).

(** The writes of [cadre.submit_cadre_review] once the pending check has
    passed: one [CadreReview] row, then the dirty columns of the lesion
    row ([reviewed_by_cadre], [status], [needs_professional_review]). *)
Definition cadre_review_write (image_id : nat) (rd : cadre_review_create)
    (user_id : nat) (l : lesion) (d : db) : response * db :=
  let r := mk_cadre_review image_id user_id (rc_review_notes rd)
             (rc_agrees_with_ai rd) (rc_escalate_to_doctor rd)
             (rc_local_recommendations rd) in
  let l := set_reviewed_by_cadre user_id l in
  let l := if rc_escalate_to_doctor rd
           then set_needs_professional_review true (set_status "escalated" l)
           else set_status "reviewed" l in
  (Review_submitted (status l) (rc_escalate_to_doctor rd),
   mk_db (<[image_id := l]> (lesions d)) (ai_assessments d)
     (cadre_reviews d ++ [r]) (doctor_consultations d)).

(** [cadre.submit_cadre_review]: the 404 raised inside the [try] is caught
    by [except Exception], rolled back and answered with 500. *)
Definition submit_cadre_review (image_id : nat) (rd : cadre_review_create)
    (user_id : nat) (d : db) : response * db :=
  match lesions d !! image_id with
  | Some l =>
      if String.eqb (status l) "pending"
      then cadre_review_write image_id rd user_id l d
      else (Http_error 500, d)
  | None => (Http_error 500, d)
  end.

(** The attributes of a [SkinLesionService] instance
    ([lesion_service.py]): the one set in [__init__] and the methods of
    the class; [_get_current_timestamp] is defined on
    [AIIntegrationService] only. *)
Definition SkinLesionService_attributes : list string :=
  ["ai_service"; "__init__"; "analyze_skin_lesion"; "get_risk_priority_queue";
   "format_analysis_for_display"; "_create_confidence_bar"; "_get_risk_color";
   "_get_risk_icon"; "_get_risk_message"; "_categorize_recommendation"].

(** [skin_lesions.submit_doctor_consultation]: building
    [consultation_data] calls [lesion_service._get_current_timestamp()];
    when the attribute is missing the [AttributeError] is caught by
    [except Exception] and answered with 500.  The database is never
    touched. *)
Definition submit_doctor_consultation (analysis_id : nat) (diagnosis : string)
    (treatment_plan : string) (follow_up_days : option Z) (user_id : nat)
    (d : db) : response * db :=
  if existsb (String.eqb "_get_current_timestamp") SkinLesionService_attributes
  then (Consultation_submitted, d)
  else (Http_error 500, d).

(** The inner join with [patients] on
    [SkinLesionImage.patient_id == Patient.patient_id]: [patient_of] holds
    the [patient_id] column of each image (absent when NULL) and
    [patients] the primary keys of the [patients] table. *)
Definition has_patient (patient_of : gmap nat nat) (patients : gset nat)
    (i : nat) : bool :=
  match patient_of !! i with
  | Some p => bool_decide (p ∈ patients)
  | None => false
  end.

(** The rows of the inner joins of [skin_lesion_images] with [patients]
    and [ai_assessments]. *)
Definition row := (nat * lesion * ai_assessment)%type.

Definition joined (patient_of : gmap nat nat) (patients : gset nat) (d : db)
    : list row :=
  omap (fun '(i, l) =>
          if has_patient patient_of patients i
          then (fun a => (i, l, a)) <$> ai_assessments d !! i
          else None)
    (map_to_list (lesions d)).

Definition row_status (r : row) : string := status r.1.2.
Definition row_risk (r : row) : risk := risk_level r.2.
Definition row_created_at (r : row) : nat := created_at r.2.

(** [ORDER BY AIAssessment.created_at DESC]: insertion by key. *)
Fixpoint insert_desc (r : row) (l : list row) : list row :=
  match l with
  | [] => [r]
  | x :: xs =>
      if (row_created_at x <=? row_created_at r)%nat then r :: x :: xs
      else x :: insert_desc r xs
  end.

Fixpoint sort_created_desc (l : list row) : list row :=
  match l with
  | [] => []
  | x :: xs => insert_desc x (sort_created_desc xs)
  end.

Definition pending_unreviewed (r : row) : bool :=
  String.eqb (row_status r) "pending"
  && match reviewed_by_cadre r.1.2 with None => true | Some _ => false end.

(** [cadre.get_pending_reviews]: no [order_by]. *)
Definition get_pending_reviews (patient_of : gmap nat nat) (patients : gset nat)
    (d : db) : list row :=
  filter (fun r => pending_unreviewed r = true) (joined patient_of patients d).

(** [cadre.get_urgent_reviews]. *)
Definition get_urgent_reviews (patient_of : gmap nat nat) (patients : gset nat)
    (d : db) : list row :=
  sort_created_desc
    (filter (fun r => pending_unreviewed r = true
                      /\ existsb (risk_eqb (row_risk r)) [URGENT; HIGH] = true)
       (joined patient_of patients d)).

(** [SkinLesionService.get_risk_priority_queue]: [priority_order] and the
    (always empty) [pending_reviews]. *)
Definition priority_order (r : risk) : nat :=
  match r with URGENT => 1 | HIGH => 2 | MEDIUM => 3 | LOW => 4 | UNCERTAIN => 2 end.

Definition get_risk_priority_queue (risk_levels : option (list risk)) : list row :=
  [].

(** [skin_lesions.get_analysis_history]: the [estimated_follow_up_days]
    of the [workflow] entry of a stored assessment. *)
Definition history_estimated_follow_up_days (risk_level : risk) : Z :=
  if risk_eqb risk_level LOW then 30%Z
  else if risk_eqb risk_level MEDIUM then 14%Z
  else 7%Z.

End Routers.

(** ** Operation sequences, concurrent requests and sample databases *)
Module Scenarios.

Import Routers.

(** The empty database. *)
Definition empty_db : db := mk_db ∅ ∅ [] [].

(** The operations that reach the lesion and review tables from the
    HTTP interface: inserting a lesion row, the cadre review endpoint and
    the doctor consultation endpoint. *)
Inductive op :=
| Op_create (image_id : nat) (l : lesion)
| Op_cadre_review (image_id : nat) (rd : cadre_review_create) (user_id : nat)
| Op_doctor_consultation (analysis_id : nat) (diagnosis treatment_plan : string)
    (follow_up_days : option Z) (user_id : nat).

Definition exec_op (o : op) (d : db) : db :=
  match o with
  | Op_create i l => snd (create_skin_lesion_image i l d)
  | Op_cadre_review i rd u => snd (submit_cadre_review i rd u d)
  | Op_doctor_consultation i dg tp f u =>
      snd (submit_doctor_consultation i dg tp f u d)
  end.

Definition run_ops (ops : list op) (d : db) : db :=
  fold_left (fun d o => exec_op o d) ops d.

(** A case with a review is no longer pending and has exactly one. *)
Definition reviews_inv (d : db) : Prop :=
  forall i, count_reviews i d = 0 \/
    (count_reviews i d = 1 /\
     exists l, lesions d !! i = Some l /\ status l <> "pending").

(** A database with one pending lesion (image 1), uploaded at time 1. *)
Definition pending_lesion : lesion := mk_lesion 1 None false None None "pending".
Definition db_one_pending : db :=
  mk_db {[1 := pending_lesion]} ∅ [] [].


(** A database with one completed lesion (image 1). *)
Definition db_one_completed : db :=
  mk_db {[1 := mk_lesion 1 None false (Some 3) (Some 4) "completed"]} ∅ [] [].

(** Two requests to [cadre.submit_cadre_review] served concurrently.
    Each handler runs in two steps: the pending check (the
    [query(...).filter(...).first()]) and the commit of its writes
    ([db.add], the dirty lesion columns, [db.commit()]).  The commit does
    not re-check the row: the check and the write are separate
    statements with no lock between them. *)
Inductive phase := Start | Checked | Finished (r : response).

Record request := mk_request {
  req_image_id : nat;
  req_data : cadre_review_create;
  req_user : nat
}.

Definition step (q : request) (p : phase) (d : db) : phase * db :=
  match p with
  | Start =>
      match lesions d !! req_image_id q with
      | Some l =>
          if String.eqb (status l) "pending" then (Checked, d)
          else (Finished (Http_error 500), d)
      | None => (Finished (Http_error 500), d)
      end
  | Checked =>
      match lesions d !! req_image_id q with
      | Some l =>
          let '(resp, d') :=
            cadre_review_write (req_image_id q) (req_data q) (req_user q) l d in
          (Finished resp, d')
      | None => (Finished (Http_error 500), d)
      end
  | Finished r => (Finished r, d)
  end.

(** Run a schedule: [true] steps the first request, [false] the second. *)
Fixpoint interleave (sched : list bool) (q1 q2 : request) (p1 p2 : phase)
    (d : db) : phase * phase * db :=
  match sched with
  | [] => (p1, p2, d)
  | true :: sched' =>
      let '(p1', d') := step q1 p1 d in interleave sched' q1 q2 p1' p2 d'
  | false :: sched' =>
      let '(p2', d') := step q2 p2 d in interleave sched' q1 q2 p1 p2' d'
  end.

(** Two assessed pending lesions uploaded at times 1 and 2, with tiers
    [r1] and [r2]. *)
Definition db_two_assessed (r1 r2 : risk) : db :=
  mk_db {[1 := pending_lesion; 2 := mk_lesion 2 None false None None "pending"]}
    {[1 := mk_ai_assessment r1 1; 2 := mk_ai_assessment r2 2]} [] [].

(** The [patient_id] column of the images of [db_two_assessed] (both of
    patient 10) and a [patients] table holding patient 10. *)
Definition patient_of_two : gmap nat nat := {[1 := 10; 2 := 10]}.
Definition patients_one : gset nat := {[10]}.

(** Sample review forms, without and with escalation. *)
Definition review_plain : cadre_review_create :=
  mk_cadre_review_create "looks benign" (Some true) false None.
Definition review_escalate : cadre_review_create :=
  mk_cadre_review_create "refer" (Some false) true None.

End Scenarios.

Import Scenarios.

(** ** The classifier ([skin_cancer_classifier.py]) and the rest of
    [model_config.py] *)
Module Classifier.

(** [model_config.get_confidence_level(confidence)]. *)
Definition get_confidence_level (confidence : Q) : confidence_level :=
  if negb (Py.Qltb confidence HIGH_CONFIDENCE) then C_HIGH
  else if negb (Py.Qltb confidence MEDIUM_CONFIDENCE) then C_MEDIUM
  else if negb (Py.Qltb confidence LOW_CONFIDENCE) then C_LOW
  else C_VERY_LOW.

(** The order of the confidence levels, VERY_LOW < LOW < MEDIUM < HIGH. *)
Definition confidence_rank (c : confidence_level) : nat :=
  match c with C_VERY_LOW => 0 | C_LOW => 1 | C_MEDIUM => 2 | C_HIGH => 3 end.

(** [CLASS_LABELS]. *)
Definition CLASS_LABELS : list (nat * string) :=
  [ (0, "ACK (Actinic keratoses)");
    (1, "BCC (Basal cell carcinoma)");
    (2, "MEL (Melanoma)");
    (3, "NEV (Nevus/Mole)");
    (4, "SCC (Squamous cell carcinoma)");
    (5, "SEK (Seborrheic keratosis)") ].

(** [d.get(k, default)] on a dict with int keys. *)
Fixpoint nat_dict_get {V} (k : nat) (d : list (nat * V)) (default : V) : V :=
  match d with
  | [] => default
  | (k', v) :: d' => if Nat.eqb k k' then v else nat_dict_get k d' default
  end.

(** [str(n)] of a non-negative int, from its decimal digits. *)
Fixpoint uint_to_string (u : Decimal.uint) : string :=
  match u with
  | Decimal.Nil => ""
  | Decimal.D0 u' => String "0" (uint_to_string u')
  | Decimal.D1 u' => String "1" (uint_to_string u')
  | Decimal.D2 u' => String "2" (uint_to_string u')
  | Decimal.D3 u' => String "3" (uint_to_string u')
  | Decimal.D4 u' => String "4" (uint_to_string u')
  | Decimal.D5 u' => String "5" (uint_to_string u')
  | Decimal.D6 u' => String "6" (uint_to_string u')
  | Decimal.D7 u' => String "7" (uint_to_string u')
  | Decimal.D8 u' => String "8" (uint_to_string u')
  | Decimal.D9 u' => String "9" (uint_to_string u')
  end.

Definition nat_to_string (n : nat) : string := uint_to_string (Nat.to_uint n).

(** One entry of [results] in [predict]. *)
Record prediction := mk_prediction {
  class_id : nat;
  label : string;
  confidence : Q;
  percentage : Q
}.

(** The loop [for idx, score in enumerate(scores)], from index [idx]. *)
Fixpoint enumerate_results (idx : nat) (scores : list Q) : list prediction :=
  match scores with
  | [] => []
  | score :: scores' =>
      mk_prediction idx
        (nat_dict_get idx CLASS_LABELS ("Class_" ++ nat_to_string idx))
        score (score * 100)
      :: enumerate_results (S idx) scores'
  end.

(** [results.sort(key=lambda x: x["confidence"], reverse=True)]: Python's
    sort is stable, also with [reverse=True], so equal confidences keep
    their order.  Insertion of an element that came before all of [l]. *)
Fixpoint insert_by_confidence (p : prediction) (l : list prediction)
    : list prediction :=
  match l with
  | [] => [p]
  | x :: xs =>
      if Qle_bool (confidence x) (confidence p) then p :: x :: xs
      else x :: insert_by_confidence p xs
  end.

Fixpoint sort_by_confidence (l : list prediction) : list prediction :=
  match l with
  | [] => []
  | x :: xs => insert_by_confidence x (sort_by_confidence xs)
  end.

(** What [SkinCancerClassifier.predict] returns for the softmax [scores]
    of a loaded model: the sorted [predictions] and [results[0]]; with no
    score [results[0]] raises [IndexError], which the [except] turns into
    [success: False]. *)
Inductive predict_result :=
| Predicted (predictions : list prediction) (top_prediction : prediction)
| Predict_error.

Definition predict (scores : list Q) : predict_result :=
  match sort_by_confidence (enumerate_results 0 scores) with
  | [] => Predict_error
  | top :: rest => Predicted (top :: rest) top
  end.

(** [model_config.RECOMMENDATIONS] (its emoji mis-encoded as in the file). *)
Definition RECOMMENDATIONS : list (string * list string) :=
  [ ("MEL (Melanoma)",
      ["âš ï¸ URGENT: Seek immediate medical attention";
       "Contact a dermatologist within 24 hours";
       "This type of lesion requires urgent evaluation";
       "Do not delay - early detection saves lives"]);
    ("BCC (Basal cell carcinoma)",
      ["Schedule appointment with dermatologist soon";
       "This requires professional medical evaluation";
       "Treatment is very effective when caught early";
       "Follow-up within 1-2 weeks recommended"]);
    ("SCC (Squamous cell carcinoma)",
      ["Schedule dermatologist appointment promptly";
       "Professional evaluation needed";
       "Early treatment prevents complications";
       "Monitor for rapid growth or changes"]);
    ("ACK (Actinic keratoses)",
      ["Monitor for changes in size, color, or texture";
       "Use sun protection to prevent progression";
       "Consider dermatologist consultation";
       "Regular skin checks recommended"]);
    ("SEK (Seborrheic keratosis)",
      ["Generally benign but monitor for changes";
       "Routine skin check sufficient";
       "Use sun protection";
       "Follow-up if lesion changes significantly"]);
    ("NEV (Nevus/Mole)",
      ["Common benign moles - monitor regularly";
       "Use ABCDE rule for monitoring changes";
       "Regular self-examination recommended";
       "Annual dermatologist check if many moles"]) ].

(** [model_config.get_recommendations(predicted_class, confidence,
    body_region)]. *)
Definition get_recommendations (predicted_class : string) (confidence : Q)
    (body_region : option string) : list string :=
  let base_recommendations :=
    dict_get predicted_class RECOMMENDATIONS
      ["Unknown lesion type detected";
       "Professional medical evaluation recommended";
       "Monitor for any changes";
       "Follow-up with healthcare provider"] in
  let base_recommendations :=
    if Py.Qltb confidence MEDIUM_CONFIDENCE
    then (base_recommendations ++
          ["âš ï¸ Low confidence prediction - professional review strongly recommended"])%list
    else base_recommendations in
  match body_region with
  | Some s =>
      if ModelConfig.in_high_risk_region body_region
      then (base_recommendations ++
            [("ðŸ“ Lesion in high-visibility area (" ++ s ++
              ") - consider aesthetic concerns")%string])%list
      else base_recommendations
  | None => base_recommendations
  end.

(** The [workflow] dictionary of [analyze_lesion]; [priority_level] is the
    lower-case name of the tier. *)
Record workflow := mk_workflow {
  needs_cadre_review : bool;
  needs_doctor_review : bool;
  priority_level : risk;
  estimated_follow_up_days : Z
}.

(** The [risk_assessment], [recommendations] and [workflow] parts of
    [analyze_lesion]. *)
Record analysis := mk_analysis {
  an_risk_level : risk;
  an_confidence_level : confidence_level;
  an_needs_professional_review : bool;
  an_needs_urgent_attention : bool;
  an_base_risk : risk;
  an_recommendations : list string;
  an_workflow : workflow
}.

Definition analyze_top_prediction (predicted_class : string) (confidence : Q)
    (body_region : option string) : analysis :=
  let risk_level := get_risk_level predicted_class confidence body_region in
  let confidence_level := get_confidence_level confidence in
  let needs_review := ModelConfig.needs_professional_review predicted_class confidence in
  let needs_urgent_attention := risk_eqb risk_level URGENT in
  let needs_cadre_review := needs_review && negb (risk_eqb risk_level LOW) in
  let needs_doctor_review :=
    needs_urgent_attention || existsb (risk_eqb risk_level) [HIGH; URGENT] in
  let recommendations :=
    get_recommendations predicted_class confidence body_region in
  mk_analysis risk_level confidence_level needs_review needs_urgent_attention
    risk_level recommendations
    (mk_workflow needs_cadre_review needs_doctor_review risk_level
       (get_follow_up_days risk_level)).

(** [SkinCancerClassifier.analyze_lesion]: [None] when [predict] fails. *)
Definition analyze_lesion (scores : list Q) (body_region : option string)
    : option analysis :=
  match predict scores with
  | Predict_error => None
  | Predicted _ top =>
      Some (analyze_top_prediction (label top) (confidence top) body_region)
  end.

End Classifier.

(** ** [image_processing.py] *)
Module ImageProcessing.

(** What [validate_image] reads of a PIL image: its mode, size, format
    ([None] for an image built in memory) and the grey levels
    [list(image.convert('L').getdata())], one per pixel. *)
Record image := mk_image {
  mode : string;
  width : Z;
  height : Z;
  format : option string;
  gray_pixels : list Z
}.

(** [sum(pixels)]. *)
Definition sum_Z (l : list Z) : Z := fold_right Z.add 0%Z l.

(** [ImageProcessor.validate_image(image)]: [(is_valid, error_message)].
    [avg_brightness] is the float [sum(pixels) / len(pixels)]; with at
    most 4096 * 4096 pixels it compares with 10 and 245 as the exact
    quotient does.  No pixel raises [ZeroDivisionError], which the bare
    [except: pass] lets through. *)
Definition validate_image (img : image) : bool * option string :=
  if negb (existsb (String.eqb (mode img)) ["RGB"; "RGBA"; "L"; "P"])
  then (false, Some "Unsupported image mode")
  else if (width img <? 50)%Z || (height img <? 50)%Z
  then (false, Some "Image must be at least 50x50 pixels")
  else if (4096 <? width img)%Z || (4096 <? height img)%Z
  then (false, Some "Image must be smaller than 4096x4096 pixels")
  else if Py.truthy (format img)
          && negb (match format img with
                   | Some f => existsb (String.eqb f) ["JPEG"; "PNG"; "JPG"]
                   | None => false
                   end)
  then (false, Some "Image must be in JPEG or PNG format")
  else
    match gray_pixels img with
    | [] => (true, None)
    | pixels =>
        let avg_brightness := Qmake (sum_Z pixels) (Pos.of_nat (length pixels)) in
        if Py.Qltb avg_brightness 10 then (false, Some "Image is too dark for analysis")
        else if Py.Qltb 245 avg_brightness
        then (false, Some "Image is too bright for analysis")
        else (true, None)
    end.

End ImageProcessing.

(** ** The rest of [prediction_service.py] *)
Module Predictor.

Import PredictionService Classifier.

(** [SkinLesionPredictor._generate_recommendations(risk_assessment,
    body_region)]. *)
Definition generate_recommendations (ra : risk_assessment)
    (body_region : option string) : list string :=
  let tier :=
    match PredictionService.risk_level ra with
    | URGENT =>
        ["⚠️ URGENT: Seek immediate medical attention";
         "Contact a dermatologist or visit emergency care";
         "Do not delay - this requires immediate professional evaluation"]
    | HIGH =>
        ["🔴 HIGH PRIORITY: Schedule dermatologist appointment within 1-2 weeks";
         "Monitor for any changes in size, color, or texture";
         "Take photos to track changes over time"]
    | MEDIUM =>
        ["🟡 MODERATE CONCERN: Consult with healthcare provider within 4-6 weeks";
         "Monitor the lesion for changes";
         "Consider dermatologist referral if changes occur"]
    | LOW =>
        ["🟢 LOW CONCERN: Monitor during regular health checkups";
         "Take photos for future comparison";
         "Watch for any changes in appearance"]
    | UNCERTAIN =>
        ["❓ UNCERTAIN RESULT: Professional evaluation recommended";
         "AI confidence is low - human expert review needed";
         "Schedule appointment with healthcare provider"]
    end in
  let general :=
    ["📱 Save this analysis for your healthcare provider";
     "🧴 Use sunscreen daily (SPF 30+)";
     "👕 Wear protective clothing when outdoors";
     "🔍 Perform monthly self-examinations"] in
  let region :=
    match body_region with
    | Some s =>
        if Py.truthy body_region then
          if existsb (String.eqb (Py.lower s)) ["face"; "neck"]
          then ["☀️ Extra sun protection needed for this area"]
          else if existsb (String.eqb (Py.lower s)) ["hands"; "feet"]
          then ["👀 This area requires regular monitoring"]
          else []
        else []
    | None => []
    end in
  (tier ++ general ++ region)%list.

(** What [SkinLesionPredictor.predict_lesion] returns. *)
Inductive predict_lesion_result :=
| Lesion_predicted (predictions : list prediction) (top_prediction : prediction)
    (ra : risk_assessment) (recommendations : list string)
| Lesion_prediction_failed.

(** [SkinLesionPredictor.predict_lesion(image, body_region)].  The image
    enters through the outcome of [validate_image] and the [scores] the
    model gives the enhanced, resized image; the classifier is loaded
    whenever the predictor is initialized. *)
Definition predict_lesion (is_initialized image_valid : bool) (scores : list Q)
    (body_region : option string) : predict_lesion_result :=
  if negb is_initialized then Lesion_prediction_failed
  else if negb image_valid then Lesion_prediction_failed
  else
    match predict scores with
    | Predict_error => Lesion_prediction_failed
    | Predicted preds top =>
        let ra := assess_risk (label top) (confidence top) body_region in
        Lesion_predicted preds top ra (generate_recommendations ra body_region)
    end.

(** Orders used to state the ranking of [predict]: descending confidence,
    and ascending class index. *)
Definition conf_desc (a b : prediction) : Prop := (confidence b <= confidence a)%Q.

Definition id_lt (a b : prediction) : Prop := (class_id a < class_id b)%nat.

End Predictor.

(** ** [lesion_service.py], [ai_integration.py] and the upload endpoint *)
Module LesionService.

Import PredictionService Classifier Predictor.

(** [AIIntegrationService.predict_skin_lesion(image, patient_id,
    body_region)] as the lesion service calls it (no [db]): its predictor
    is initialized whenever the integration service is. *)
Definition ai_predict_skin_lesion (ai_initialized image_valid : bool)
    (scores : list Q) (body_region : option string) : predict_lesion_result :=
  if negb ai_initialized then Lesion_prediction_failed
  else predict_lesion true image_valid scores body_region.

(** The [analysis_summary] dictionary (patient id, notes and timestamp
    left out). *)
Record analysis_summary := mk_analysis_summary {
  sm_body_region : option string;
  sm_risk_level : risk;
  sm_confidence_level : ModelConfig.confidence_level;
  sm_needs_cadre_review : bool;
  sm_needs_doctor_review : bool;
  sm_recommendations : list string
}.

(** The dictionary returned by [analyze_skin_lesion]; [ar_summary] holds
    the summary and the [predictions] of [full_ai_result]. *)
Record analysis_result := mk_analysis_result {
  ar_success : bool;
  ar_summary : option (analysis_summary * list prediction);
  ar_needs_cadre_review : bool;
  ar_needs_doctor_review : bool
}.

(** [SkinLesionService.analyze_skin_lesion]. *)
Definition analyze_skin_lesion (ai_initialized image_valid : bool)
    (scores : list Q) (body_region : option string) : analysis_result :=
  match ai_predict_skin_lesion ai_initialized image_valid scores body_region with
  | Lesion_prediction_failed => mk_analysis_result false None true true
  | Lesion_predicted preds top ra recs =>
      let needs_cadre_review := PredictionService.needs_professional_review ra in
      let needs_doctor_review := needs_urgent_attention ra in
      mk_analysis_result true
        (Some (mk_analysis_summary body_region (PredictionService.risk_level ra)
                 (PredictionService.confidence_level ra)
                 needs_cadre_review needs_doctor_review recs, preds))
        needs_cadre_review needs_doctor_review
  end.

(** Python's [int(x)] on a float: truncation toward zero. *)
Definition py_int (q : Q) : Z := Z.quot (Qnum q) (Zpos (Qden q)).

(** A Python [str] as its code points, and [s * n] ([""] when [n <= 0]). *)
Definition py_repeat (s : list Z) (n : Z) : list Z :=
  concat (repeat s (Z.to_nat n)).

(** U+2588 FULL BLOCK and U+2591 LIGHT SHADE. *)
Definition FULL_BLOCK : Z := 9608.
Definition LIGHT_SHADE : Z := 9617.

(** [SkinLesionService._create_confidence_bar(percentage)]. *)
Definition create_confidence_bar (percentage : Q) : list Z :=
  let bar_length := py_int (percentage / 5) in
  (py_repeat [FULL_BLOCK] bar_length ++ py_repeat [LIGHT_SHADE] (20 - bar_length))%list.

(** [_get_risk_color], [_get_risk_icon], [_get_risk_message]: the stored
    tier is always a key of their dicts. *)
Definition get_risk_color (r : risk) : string :=
  match r with
  | URGENT => "#ff4444" | HIGH => "#ff8800" | MEDIUM => "#ffcc00"
  | LOW => "#44ff44" | UNCERTAIN => "#8888ff"
  end.

Definition get_risk_icon (r : risk) : string :=
  match r with
  | URGENT => "🚨" | HIGH => "🔴" | MEDIUM => "🟡" | LOW => "🟢" | UNCERTAIN => "❓"
  end.

Definition get_risk_message (r : risk) : string :=
  match r with
  | URGENT => "Immediate medical attention required"
  | HIGH => "Schedule dermatologist appointment soon"
  | MEDIUM => "Consult healthcare provider within weeks"
  | LOW => "Monitor during regular checkups"
  | UNCERTAIN => "Professional evaluation recommended"
  end.

(** [SkinLesionService._categorize_recommendation(recommendation)]. *)
Definition categorize_recommendation (recommendation : string) : string :=
  if Py.contains "URGENT" recommendation || Py.contains "🚨" recommendation
  then "urgent"
  else if Py.contains "HIGH" recommendation || Py.contains "🔴" recommendation
  then "high"
  else if Py.contains "📱" recommendation || Py.contains "🧴" recommendation
  then "general"
  else "standard".

(** One entry of [predictions_display] (the formatted percentage text
    left out). *)
Record prediction_display := mk_prediction_display {
  pd_label : string;
  pd_confidence_bar : list Z
}.

Record risk_display := mk_risk_display {
  rd_level : risk;
  rd_confidence : ModelConfig.confidence_level;
  rd_color : string;
  rd_icon : string;
  rd_message : string
}.

(** The [display_data] dictionary; recommendations as (text, type). *)
Record display_data := mk_display_data {
  dd_predictions : list prediction_display;
  dd_risk_assessment : risk_display;
  dd_recommendations : list (string * string);
  dd_needs_cadre_review : bool;
  dd_needs_doctor_review : bool;
  dd_body_region : option string
}.

(** [SkinLesionService.format_analysis_for_display(analysis_result)]:
    [None] is [display_data: None]. *)
Definition format_analysis_for_display (r : analysis_result) : option display_data :=
  if negb (ar_success r) then None
  else
    match ar_summary r with
    | None => None
    | Some (summary, preds) =>
        Some (mk_display_data
          (map (fun p => mk_prediction_display (label p)
                           (create_confidence_bar (percentage p)))
             (take 3 preds))
          (mk_risk_display (sm_risk_level summary) (sm_confidence_level summary)
             (get_risk_color (sm_risk_level summary))
             (get_risk_icon (sm_risk_level summary))
             (get_risk_message (sm_risk_level summary)))
          (map (fun rec => (rec, categorize_recommendation rec))
             (take 5 (sm_recommendations summary)))
          (sm_needs_cadre_review summary) (sm_needs_doctor_review summary)
          (sm_body_region summary))
    end.

(** What [upload_and_analyze_lesion] answers. *)
Inductive upload_response :=
| Upload_ok (analysis : display_data) (needs_cadre needs_doctor : bool)
| Upload_error (code : nat).

(** [skin_lesions.upload_and_analyze_lesion]: [content_type] of the
    upload ([None.startswith] raises and is answered 500), whether
    [Image.open] reads the bytes, then the service call.  The 400 is
    re-raised by [except HTTPException: raise]. *)
Definition upload_and_analyze_lesion (content_type : option string)
    (image_opens ai_initialized image_valid : bool) (scores : list Q)
    (body_region : option string) : upload_response :=
  match content_type with
  | None => Upload_error 500
  | Some ct =>
      if negb (String.prefix "image/" ct) then Upload_error 400
      else if negb image_opens then Upload_error 500
      else
        let r := analyze_skin_lesion ai_initialized image_valid scores body_region in
        if negb (ar_success r) then Upload_error 500
        else
          match format_analysis_for_display r with
          | Some dd => Upload_ok dd (ar_needs_cadre_review r) (ar_needs_doctor_review r)
          | None => Upload_error 500
          end
  end.

End LesionService.

(** ** Queries of [crud.py] and [cadre.py] on the lesion tables *)
Module Queries.

(** [reviewed_by_cadre IS NULL]. *)
Definition unreviewed (l : lesion) : bool :=
  match reviewed_by_cadre l with None => true | Some _ => false end.

(** [needs_professional_review == True AND reviewed_by_cadre IS NULL]. *)
Definition review_candidate (l : lesion) : bool :=
  Db.needs_professional_review l && unreviewed l.

(** The inner join with [ai_assessments] and [risk_level IN rl]. *)
Definition assessed_in (d : db) (rl : list risk) (i : nat) : bool :=
  match ai_assessments d !! i with
  | Some a => existsb (risk_eqb (Db.risk_level a)) rl
  | None => false
  end.

(** [crud.get_pending_reviews(db, risk_levels, skip, limit)].  The query
    has no [order_by]; rows come in the table's order. *)
Definition get_pending_reviews (risk_levels : option (list risk)) (skip limit : nat)
    (d : db) : list (nat * lesion) :=
  let q := filter (fun r => review_candidate r.2 = true) (map_to_list (lesions d)) in
  let q :=
    match risk_levels with
    | Some ((_ :: _) as rl) => filter (fun r => assessed_in d rl r.1 = true) q
    | _ => q
    end in
  take limit (drop skip q).

(** [crud.get_review_queue_stats(db)]. *)
Record queue_stats := mk_queue_stats {
  total_pending : nat;
  urgent_count : nat;
  high_priority_count : nat;
  medium_priority_count : nat;
  low_priority_count : nat
}.

Definition pending_query (d : db) : list (nat * lesion) :=
  filter (fun r => review_candidate r.2 = true) (map_to_list (lesions d)).

Definition count_with_risk (d : db) (t : risk) : nat :=
  length (filter (fun r => assessed_in d [t] r.1 = true) (pending_query d)).

Definition get_review_queue_stats (d : db) : queue_stats :=
  mk_queue_stats (length (pending_query d)) (count_with_risk d URGENT)
    (count_with_risk d HIGH) (count_with_risk d MEDIUM) (count_with_risk d LOW).

(** The [patient_id] column of [skin_lesion_images], by [image_id]; an
    absent key is [NULL]. *)
Definition patient_column := gmap nat nat.

Definition of_patient (patient_of : patient_column) (pid : nat) (r : nat * lesion)
    : bool :=
  bool_decide (patient_of !! r.1 = Some pid).

(** [crud.get_patient_skin_lesions(db, patient_id, skip, limit)] (no
    [order_by]). *)
Definition get_patient_skin_lesions (patient_of : patient_column) (pid skip limit : nat)
    (d : db) : list (nat * lesion) :=
  take limit (drop skip (filter (fun r => of_patient patient_of pid r = true)
                           (map_to_list (lesions d)))).

(** [ORDER BY upload_timestamp DESC]: insertion by key. *)
Fixpoint insert_upload_desc (r : nat * lesion) (l : list (nat * lesion))
    : list (nat * lesion) :=
  match l with
  | [] => [r]
  | x :: xs =>
      if (upload_timestamp x.2 <=? upload_timestamp r.2)%nat then r :: x :: xs
      else x :: insert_upload_desc r xs
  end.

Fixpoint sort_upload_desc (l : list (nat * lesion)) : list (nat * lesion) :=
  match l with
  | [] => []
  | x :: xs => insert_upload_desc x (sort_upload_desc xs)
  end.

(** [crud.get_patient_lesion_history(db, patient_id)]. *)
Record lesion_history := mk_lesion_history {
  lh_patient_id : nat;
  total_analyses : nat;
  lh_pending_reviews : nat;
  high_risk_count : nat;
  recent_analyses : list (nat * lesion)
}.

Definition get_patient_lesion_history (patient_of : patient_column) (pid : nat)
    (d : db) : lesion_history :=
  let all_lesions := get_patient_skin_lesions patient_of pid 0 100 d in
  let mine := filter (fun r => of_patient patient_of pid r = true)
                (map_to_list (lesions d)) in
  mk_lesion_history pid (length all_lesions)
    (length (filter (fun r => String.eqb (status r.2) "pending" = true) all_lesions))
    (length (filter (fun r => assessed_in d [HIGH; URGENT] r.1 = true) mine))
    (take 10 (sort_upload_desc mine)).

(** [cadre.get_community_stats]: the counters over the lesion and review
    tables ([totalPatients], [aiAnalysesToday] and [followUpsNeeded] read
    columns outside this model). *)
Record community_stats := mk_community_stats {
  totalPendingReviews : nat;
  urgentCases : nat;
  completedReviews : nat
}.

Definition pending_unclaimed (l : lesion) : bool :=
  String.eqb (status l) "pending" && unreviewed l.

Definition get_community_stats (user_id : nat) (d : db) : community_stats :=
  mk_community_stats
    (length (filter (fun r => pending_unclaimed r.2 = true) (map_to_list (lesions d))))
    (length (filter (fun r => pending_unclaimed r.2 && assessed_in d [URGENT; HIGH] r.1 = true)
               (map_to_list (lesions d))))
    (length (filter (fun r => cadre_id r = user_id) (cadre_reviews d))).

(** A calendar date. *)
Record date := mk_date { year : Z; month : Z; day : Z }.

(** The order of dates, [a <= b]. *)
Definition date_le (a b : date) : Prop :=
  (year a < year b \/
   (year a = year b /\ (month a < month b \/ (month a = month b /\ day a <= day b))))%Z.

(** [(a1, a2) < (b1, b2)] on int pairs. *)
Definition tuple_lt (a b : Z * Z) : bool :=
  (a.1 <? b.1)%Z || ((a.1 =? b.1)%Z && (a.2 <? b.2)%Z).

(** [cadre.calculate_age(birth_date)], with [today] the UTC date. *)
Definition calculate_age (today : date) (birth_date : option date) : option Z :=
  match birth_date with
  | None => None
  | Some b =>
      Some (year today - year b
            - (if tuple_lt (month today, day today) (month b, day b) then 1 else 0))%Z
  end.

(** Order of [sort_upload_desc]: most recent upload first. *)
Definition upload_desc (a b : nat * lesion) : Prop :=
  (upload_timestamp b.2 <= upload_timestamp a.2)%nat.

End Queries.

(** ** [skin_lesions.get_analysis_history] *)
Module History.

Import Queries.

(** [UserRole]. *)
Inductive user_role := PATIENT | DOCTOR | LOCAL_CADRE | ADMIN.

(** One entry of [analyses] (the fields the workflow and listing use). *)
Record history_entry := mk_history_entry {
  he_image_id : nat;
  he_patient_id : option nat;
  he_risk_level : risk;
  he_needs_urgent_attention : bool;
  he_needs_cadre_review : bool;
  he_needs_doctor_review : bool;
  he_estimated_follow_up_days : Z;
  he_timestamp : nat
}.

Definition history_entry_of (patient_of : patient_column) (i : nat) (l : lesion)
    (a : ai_assessment) : history_entry :=
  mk_history_entry i (patient_of !! i) (Db.risk_level a)
    (existsb (risk_eqb (Db.risk_level a)) [URGENT; HIGH])
    (unreviewed l && existsb (risk_eqb (Db.risk_level a)) [MEDIUM; HIGH])
    (match reviewed_by_doctor l with None => true | Some _ => false end
     && existsb (risk_eqb (Db.risk_level a)) [HIGH; URGENT])
    (Routers.history_estimated_follow_up_days (Db.risk_level a))
    (upload_timestamp l).

(** The attributes of an [AIAssessment] row ([models.py]): its columns
    and the [lesion_image] relationship.  There is no
    [needs_professional_review]. *)
Definition AIAssessment_attributes : list string :=
  ["assessment_id"; "image_id"; "risk_level"; "confidence_level";
   "predicted_class"; "all_predictions"; "recommendations";
   "follow_up_needed"; "follow_up_days"; "created_at"; "lesion_image"].

(** The [analysis_data] dictionary of one assessed lesion, evaluated in
    source order: [float(ai_assessment.confidence_level or 0.0)] first
    ([confidence_parses i] tells whether it succeeds on the string column,
    a [ValueError] otherwise), then
    [ai_assessment.needs_professional_review] (an [AttributeError] when
    the attribute is missing).  [None] is the exception. *)
Definition analysis_data_of (patient_of : patient_column)
    (confidence_parses : nat -> bool) (i : nat) (l : lesion)
    (a : ai_assessment) : option history_entry :=
  if negb (confidence_parses i) then None
  else if negb (existsb (String.eqb "needs_professional_review")
                  AIAssessment_attributes) then None
  else Some (history_entry_of patient_of i l a).

(** The [for lesion in skin_lesions] loop over the assessed lesions: the
    first exception leaves the loop. *)
Fixpoint format_analyses (patient_of : patient_column)
    (confidence_parses : nat -> bool)
    (assessed : list (nat * lesion * ai_assessment))
    : option (list history_entry) :=
  match assessed with
  | [] => Some []
  | ((i, l), a) :: rest =>
      match analysis_data_of patient_of confidence_parses i l a with
      | None => None
      | Some e =>
          match format_analyses patient_of confidence_parses rest with
          | None => None
          | Some es => Some (e :: es)
          end
      end
  end.

(** [get_analysis_history]: an exception in the loop is caught by the
    [except] and answered with 500, here [None]. *)
Definition get_analysis_history (patient_of : patient_column)
    (confidence_parses : nat -> bool) (role : user_role) (user_id : nat) (d : db)
    : option (list history_entry * nat) :=
  let rows := map_to_list (lesions d) in
  let rows :=
    match role with
    | PATIENT => filter (fun r => of_patient patient_of user_id r = true) rows
    | LOCAL_CADRE | DOCTOR | ADMIN => rows
    end in
  let rows := sort_upload_desc rows in
  let assessed := omap (fun r => (fun a => (r, a)) <$> ai_assessments d !! r.1) rows in
  match format_analyses patient_of confidence_parses assessed with
  | Some analyses => Some (analyses, length analyses)
  | None => None
  end.

End History.

(** * Properties of the risk engines *)
Module RiskProofs.

Import PredictionService.

Lemma Qltb_true (x y : Q) : Py.Qltb x y = true <-> (x < y)%Q.
Proof.
  unfold Py.Qltb. rewrite negb_true_iff. split.
  - intros H. apply Qnot_le_lt. intros Hle.
    apply Qle_bool_iff in Hle. congruence.
  - intros H. destruct (Qle_bool y x) eqn:E; [|reflexivity].
    apply Qle_bool_iff in E. exfalso. apply (Qlt_not_le x y); assumption.
Qed.

Lemma Qltb_false (x y : Q) : Py.Qltb x y = false <-> (y <= x)%Q.
Proof.
  unfold Py.Qltb. rewrite negb_false_iff. apply Qle_bool_iff.
Qed.

(** [d.get(k, default)] of a key absent from the dict is [default]. *)
Lemma dict_get_notin {V} (k : string) (d : list (string * V)) (dflt : V) :
  ~ In k (map fst d) -> dict_get k d dflt = dflt.
Proof.
  induction d as [|[k' v] d IH]; simpl; intros Hn; [reflexivity|].
  destruct (String.eqb_spec k k') as [->|Hne].
  - exfalso. apply Hn. left. reflexivity.
  - apply IH. intros Hin. apply Hn. right. exact Hin.
Qed.

(** The high-risk region strings are their own lower case. *)
Lemma high_risk_region_in (r : string) :
  In r ModelConfig.high_risk_regions ->
  ModelConfig.in_high_risk_region (Some r) = true.
Proof.
  simpl. intros H. repeat destruct H as [H|H]; subst; try contradiction;
    reflexivity.
Qed.

Ltac catalog_cases H :=
  simpl in H; repeat destruct H as [H|H]; subst; try contradiction.

(** C1: below the 0.4 gate both engines answer UNCERTAIN, and the review
    flag of [_assess_risk] and [needs_professional_review] are set, for
    every catalog label (MEL included) and every region. *)
Theorem confidence_gate_uncertain (label : string) (c : Q)
    (region : option string) :
  In label (map fst RISK_LEVELS) -> (0 <= c)%Q -> (c < LOW_CONFIDENCE)%Q ->
  get_risk_level label c region = UNCERTAIN /\
  risk_level (assess_risk label c region) = UNCERTAIN /\
  PredictionService.needs_professional_review (assess_risk label c region) = true /\
  ModelConfig.needs_professional_review label c = true.
Proof.
  intros _ _ Hc.
  assert (Hg : Py.Qltb c LOW_CONFIDENCE = true) by (apply Qltb_true; exact Hc).
  assert (Hr : Py.Qltb c professional_review_threshold = true).
  { apply Qltb_true. apply Qlt_trans with LOW_CONFIDENCE; [exact Hc|].
    unfold LOW_CONFIDENCE, professional_review_threshold. reflexivity. }
  split; [|split; [|split]].
  - unfold get_risk_level. rewrite Hg. reflexivity.
  - unfold assess_risk. rewrite Hg. simpl.
    destruct (PredictionService.in_high_risk_region region); reflexivity.
  - unfold assess_risk. rewrite Hg. simpl.
    destruct (PredictionService.in_high_risk_region region); reflexivity.
  - unfold ModelConfig.needs_professional_review. rewrite Hr.
    destruct (existsb _ _); reflexivity.
Qed.

(** Both engines test the region with the same list. *)
Lemma region_tests_agree (region : option string) :
  PredictionService.in_high_risk_region region =
  ModelConfig.in_high_risk_region region.
Proof. reflexivity. Qed.

Ltac gate_facts c :=
  let Eg := fresh "Eg" in let Em := fresh "Em" in
  destruct (Py.Qltb c LOW_CONFIDENCE) eqn:Eg;
  destruct (Py.Qltb c MEDIUM_CONFIDENCE) eqn:Em;
  [apply Qltb_true in Eg | apply Qltb_true in Eg
  | apply Qltb_false in Eg | apply Qltb_false in Eg].

(** Above the gate, 0.3 < c, so the MEL override fires. *)
Lemma urgent_after_gate (c : Q) :
  (LOW_CONFIDENCE <= c)%Q -> Py.Qltb urgent_threshold c = true.
Proof.
  intros H. apply Qltb_true. apply Qlt_le_trans with LOW_CONFIDENCE; [|exact H].
  reflexivity.
Qed.

(** C5: with c >= 0.4 and a high-risk region, [get_risk_level] raises
    LOW to MEDIUM and MEDIUM to HIGH and keeps HIGH and URGENT, as
    specified; the region block of [_assess_risk] (the live path) has no
    MEDIUM to HIGH branch, so it raises LOW to MEDIUM only and keeps
    MEDIUM, HIGH and URGENT. *)
Theorem region_escalation_by_engine (label : string) (c : Q) (r : string) :
  In label (map fst RISK_LEVELS) -> (LOW_CONFIDENCE <= c)%Q ->
  In r ModelConfig.high_risk_regions ->
  (dict_get label RISK_LEVELS UNCERTAIN = LOW ->
     get_risk_level label c (Some r) = MEDIUM /\
     risk_level (assess_risk label c (Some r)) = MEDIUM) /\
  (dict_get label RISK_LEVELS UNCERTAIN = MEDIUM ->
     get_risk_level label c (Some r) = HIGH /\
     risk_level (assess_risk label c (Some r)) = MEDIUM) /\
  (dict_get label RISK_LEVELS UNCERTAIN = HIGH ->
     get_risk_level label c (Some r) = HIGH /\
     risk_level (assess_risk label c (Some r)) = HIGH) /\
  (dict_get label RISK_LEVELS UNCERTAIN = URGENT ->
     get_risk_level label c (Some r) = URGENT /\
     risk_level (assess_risk label c (Some r)) = URGENT).
Proof.
  intros Hl Hc Hr.
  pose proof (high_risk_region_in r Hr) as Hreg.
  pose proof (urgent_after_gate c Hc) as Hu.
  assert (Hg : Py.Qltb c LOW_CONFIDENCE = false) by (apply Qltb_false; exact Hc).
  assert (Hreg' : PredictionService.in_high_risk_region (Some r) = true)
    by (rewrite region_tests_agree; exact Hreg).
  unfold get_risk_level, assess_risk.
  rewrite Hreg, Hreg', Hg, Hu.
  destruct (Py.Qltb c MEDIUM_CONFIDENCE);
    catalog_cases Hl; simpl; repeat split; intros; discriminate.
Qed.

(** C5: failing input on the live path ([_assess_risk]): a MEDIUM label
    on the face stays MEDIUM. *)
Lemma region_escalation_medium_counterexample :
  dict_get "ACK (Actinic keratoses)" RISK_LEVELS UNCERTAIN = MEDIUM /\
  risk_level (assess_risk "ACK (Actinic keratoses)" (9 # 10) (Some "face"))
    = MEDIUM.
Proof. split; vm_compute; reflexivity. Qed.

Ltac close_agreement :=
  split;
  [ intros Heq [H1 [H2 H3]];
    first [ discriminate | exfalso; eapply Qlt_not_le; eassumption ]
  | intros Hn;
    first [ reflexivity
          | exfalso; apply Hn; repeat split; first [reflexivity | assumption] ] ].

(** C10: on catalog labels and confidences in [0,1] the two engines
    return the same tier except exactly when the region is a high-risk
    one, the label is the MEDIUM one (ACK) and c >= 0.4; there
    [get_risk_level] answers HIGH and [_assess_risk], whose region block
    lacks the MEDIUM to HIGH branch, answers MEDIUM. *)
Theorem engines_agree_except_medium_in_region (label : string) (c : Q)
    (region : option string) :
  In label (map fst RISK_LEVELS) -> (0 <= c)%Q -> (c <= 1)%Q ->
  (get_risk_level label c region = risk_level (assess_risk label c region)
   <-> ~ (ModelConfig.in_high_risk_region region = true
          /\ label = "ACK (Actinic keratoses)"
          /\ (LOW_CONFIDENCE <= c)%Q)) /\
  (ModelConfig.in_high_risk_region region = true ->
   label = "ACK (Actinic keratoses)" -> (LOW_CONFIDENCE <= c)%Q ->
   get_risk_level label c region = HIGH /\
   risk_level (assess_risk label c region) = MEDIUM).
Proof.
  intros Hl _ _.
  unfold get_risk_level, assess_risk.
  destruct (PredictionService.in_high_risk_region region) eqn:Er1;
  destruct (ModelConfig.in_high_risk_region region) eqn:Er2;
    try (rewrite region_tests_agree in Er1; congruence);
  (destruct (Py.Qltb c LOW_CONFIDENCE) eqn:Eg;
   [ apply Qltb_true in Eg
   | pose proof Eg as Eg'; apply Qltb_false in Eg';
     rewrite (urgent_after_gate c Eg') ]);
  destruct (Py.Qltb c MEDIUM_CONFIDENCE);
  catalog_cases Hl; simpl;
  (split;
   [ close_agreement
   | intros H1 H2 H3;
     first [ discriminate | exfalso; eapply Qlt_not_le; eassumption
           | split; reflexivity ] ]).
Qed.

(** C10: counterexample, ACK at 0.9 on the face. *)
Lemma engines_disagree_counterexample :
  get_risk_level "ACK (Actinic keratoses)" (9 # 10) (Some "face") = HIGH /\
  risk_level (assess_risk "ACK (Actinic keratoses)" (9 # 10) (Some "face"))
    = MEDIUM.
Proof. split; vm_compute; reflexivity. Qed.

(** At or above 0.8 every confidence test of both engines has the same
    outcome. *)
Lemma high_confidence_tests (c : Q) :
  (HIGH_CONFIDENCE <= c)%Q ->
  Py.Qltb c LOW_CONFIDENCE = false /\ Py.Qltb c MEDIUM_CONFIDENCE = false /\
  Py.Qltb c HIGH_CONFIDENCE = false /\ Py.Qltb urgent_threshold c = true /\
  Py.Qltb c professional_review_threshold = false.
Proof.
  intros H.
  repeat split;
    first [ apply Qltb_false | apply Qltb_true ];
    first [ exact H
          | apply Qle_trans with HIGH_CONFIDENCE; [discriminate | exact H]
          | apply Qlt_le_trans with HIGH_CONFIDENCE; [reflexivity | exact H] ].
Qed.

(** C6 (amended): no input makes either engine fail.  A label outside
    the catalog (not containing "MEL") gets UNCERTAIN from
    [get_risk_level] and, above the gate, MEDIUM from [_assess_risk].
    The confidence is not range-checked: for every label and region, all
    confidences of at least 0.8 (those above 1 included) give the same
    results, and every confidence below 0.4 (negative ones included)
    gives UNCERTAIN from both engines. *)
Theorem engines_total_with_fallbacks :
  (forall (label : string) (c : Q) (region : option string),
     ~ In label (map fst RISK_LEVELS) -> Py.contains "MEL" label = false ->
     get_risk_level label c region = UNCERTAIN) /\
  (forall (label : string) (c : Q) (region : option string),
     ~ In label (map fst RISK_LEVELS) ->
     risk_level (assess_risk label c region)
       = if Py.Qltb c LOW_CONFIDENCE then UNCERTAIN else MEDIUM) /\
  (forall (label : string) (region : option string) (c c' : Q),
     (HIGH_CONFIDENCE <= c)%Q -> (HIGH_CONFIDENCE <= c')%Q ->
     get_risk_level label c region = get_risk_level label c' region /\
     ModelConfig.needs_professional_review label c
       = ModelConfig.needs_professional_review label c' /\
     risk_level (assess_risk label c region)
       = risk_level (assess_risk label c' region) /\
     confidence_level (assess_risk label c region)
       = confidence_level (assess_risk label c' region) /\
     PredictionService.needs_professional_review (assess_risk label c region)
       = PredictionService.needs_professional_review (assess_risk label c' region) /\
     needs_urgent_attention (assess_risk label c region)
       = needs_urgent_attention (assess_risk label c' region) /\
     base_risk (assess_risk label c region)
       = base_risk (assess_risk label c' region)) /\
  (forall (label : string) (region : option string) (c : Q),
     (c < LOW_CONFIDENCE)%Q ->
     get_risk_level label c region = UNCERTAIN /\
     risk_level (assess_risk label c region) = UNCERTAIN).
Proof.
  split; [|split; [|split]].
  - intros label c region Hn Hm.
    unfold get_risk_level. rewrite (dict_get_notin _ _ _ Hn), Hm.
    destruct (ModelConfig.in_high_risk_region region);
      destruct (Py.Qltb c LOW_CONFIDENCE); reflexivity.
  - intros label c region Hn.
    unfold assess_risk. rewrite (dict_get_notin _ _ _ Hn).
    destruct (Py.Qltb c LOW_CONFIDENCE); [|destruct (Py.Qltb c MEDIUM_CONFIDENCE)];
      destruct (PredictionService.in_high_risk_region region); reflexivity.
  - intros label region c c' Hc Hc'.
    destruct (high_confidence_tests c Hc) as [L1 [M1 [H1 [U1 P1]]]].
    destruct (high_confidence_tests c' Hc') as [L2 [M2 [H2 [U2 P2]]]].
    unfold get_risk_level, ModelConfig.needs_professional_review, assess_risk,
      PredictionService.get_confidence_level.
    rewrite L1, M1, H1, U1, P1, L2, M2, H2, U2, P2.
    destruct (PredictionService.in_high_risk_region region);
      repeat split; reflexivity.
  - intros label region c Hc.
    assert (Hg : Py.Qltb c LOW_CONFIDENCE = true) by (apply Qltb_true; exact Hc).
    unfold get_risk_level, assess_risk. rewrite Hg.
    destruct (PredictionService.in_high_risk_region region); split; reflexivity.
Qed.

(** C6: counterexample, an unknown label and an out-of-range score both
    give ordinary tiers. *)
Lemma engines_no_error_counterexample :
  get_risk_level "XYZ" (9 # 10) None = UNCERTAIN /\
  risk_level (assess_risk "XYZ" (9 # 10) None) = MEDIUM /\
  get_risk_level "NEV (Nevus/Mole)" (3 # 2) None = LOW /\
  risk_level (assess_risk "NEV (Nevus/Mole)" (3 # 2) None) = LOW.
Proof. repeat split; vm_compute; reflexivity. Qed.

(** C8: the follow-up days of an analysis are read from the configured
    table by its final tier: URGENT 1, HIGH 7, MEDIUM 30, LOW 90, and
    UNCERTAIN 30 (the [.get] default), for every label, confidence and
    region.  The history view, the only other place that reports
    follow-up days, never returns an entry: it answers 500 as soon as an
    assessed lesion is listed, and an empty list otherwise. *)
Theorem follow_up_days_by_final_tier :
  (forall (label : string) (c : Q) (region : option string),
     let a := Classifier.analyze_top_prediction label c region in
     Classifier.estimated_follow_up_days (Classifier.an_workflow a)
       = match Classifier.an_risk_level a with
         | URGENT => 1%Z | HIGH => 7%Z | MEDIUM => 30%Z | LOW => 90%Z
         | UNCERTAIN => 30%Z
         end) /\
  (forall (patient_of : Queries.patient_column) (confidence_parses : nat -> bool)
          (role : History.user_role) (user_id : nat) (d : db)
          (es : list History.history_entry) (n : nat),
     History.get_analysis_history patient_of confidence_parses role user_id d
       = Some (es, n) -> es = []).
Proof.
  split.
  - intros label c region. cbn zeta.
    unfold Classifier.analyze_top_prediction. cbn [Classifier.an_workflow
      Classifier.estimated_follow_up_days Classifier.an_risk_level].
    destruct (get_risk_level label c region); reflexivity.
  - intros patient_of confidence_parses role user_id d es n.
    unfold History.get_analysis_history.
    destruct (omap _ _) as [|[[i l] a] rest]; simpl.
    + intros H. injection H as <- _. reflexivity.
    + unfold History.analysis_data_of.
      destruct (confidence_parses i); simpl; discriminate.
Qed.

End RiskProofs.

(** * Properties of the case lifecycle *)
Module LifecycleProofs.

Import Routers.

Lemma count_reviews_snoc (i : nat) (d : db) (r : cadre_review) ls ai dc :
  count_reviews i (mk_db ls ai (cadre_reviews d ++ [r])%list dc)
  = count_reviews i d + (if decide (review_image_id r = i) then 1 else 0).
Proof.
  unfold count_reviews; simpl. rewrite filter_app, length_app.
  destruct (decide (review_image_id r = i)).
  - rewrite filter_cons_True by assumption. reflexivity.
  - rewrite filter_cons_False by assumption. reflexivity.
Qed.

Lemma reviews_inv_empty : reviews_inv empty_db.
Proof. intros i. left. reflexivity. Qed.

Lemma reviews_inv_exec (o : op) (d : db) :
  reviews_inv d -> reviews_inv (exec_op o d).
Proof.
  intros Hinv j. destruct o as [i l | i rd u | i dg tp f u]; simpl.
  - unfold create_skin_lesion_image.
    destruct (lesions d !! i) eqn:Ei; simpl; [apply Hinv|].
    destruct (Hinv j) as [H0 | [H1 [l' [Hl' Hs]]]]; [left; exact H0|].
    right. split; [exact H1|]. exists l'. split; [|exact Hs].
    unfold set_lesions; simpl. destruct (decide (i = j)) as [->|Hne].
    + congruence.
    + rewrite lookup_insert_ne by exact Hne. exact Hl'.
  - unfold submit_cadre_review.
    destruct (lesions d !! i) as [l|] eqn:Ei; [|apply Hinv].
    destruct (String.eqb_spec (status l) "pending") as [Hp|Hp]; [|apply Hinv].
    unfold cadre_review_write. simpl. rewrite count_reviews_snoc. simpl.
    destruct (decide (i = j)) as [->|Hne].
    + destruct (Hinv j) as [H0 | [_ [l' [Hl' Hs]]]]; [|congruence].
      right. rewrite H0. split; [reflexivity|].
      eexists. rewrite lookup_insert_eq. split; [reflexivity|].
      destruct (rc_escalate_to_doctor rd); simpl; discriminate.
    + rewrite Nat.add_0_r.
      destruct (Hinv j) as [H0 | [H1 [l' [Hl' Hs]]]]; [left; exact H0|].
      right. split; [exact H1|]. exists l'.
      rewrite lookup_insert_ne by exact Hne. split; [exact Hl' | exact Hs].
  - apply Hinv.
Qed.

Lemma reviews_inv_run (ops : list op) (d : db) :
  reviews_inv d -> reviews_inv (run_ops ops d).
Proof.
  revert d. induction ops as [|o ops IH]; simpl; intros d Hd; [exact Hd|].
  apply IH. apply reviews_inv_exec. exact Hd.
Qed.

(** C2: the cadre review endpoint on a pending, unclaimed case records
    the reviewer, sets ESCALATED or REVIEWED and appends one review; on a
    missing or non-pending case it fails and changes nothing; so along any
    sequence of operations every case has at most one review. *)
Theorem submit_cadre_review_guarded :
  (forall (d : db) (i : nat) (l : lesion) (rd : cadre_review_create) (uid : nat),
     lesions d !! i = Some l -> status l = "pending" ->
     reviewed_by_cadre l = None ->
     let st := if rc_escalate_to_doctor rd then "escalated" else "reviewed" in
     fst (submit_cadre_review i rd uid d)
       = Review_submitted st (rc_escalate_to_doctor rd) /\
     status_of i (snd (submit_cadre_review i rd uid d)) = Some st /\
     (reviewed_by_cadre <$> lesions (snd (submit_cadre_review i rd uid d)) !! i)
       = Some (Some uid) /\
     cadre_reviews (snd (submit_cadre_review i rd uid d))
       = (cadre_reviews d ++
          [mk_cadre_review i uid (rc_review_notes rd) (rc_agrees_with_ai rd)
             (rc_escalate_to_doctor rd) (rc_local_recommendations rd)])%list) /\
  (forall (d : db) (i : nat) (rd : cadre_review_create) (uid : nat),
     (lesions d !! i = None \/
      exists l, lesions d !! i = Some l /\ status l <> "pending") ->
     submit_cadre_review i rd uid d = (Http_error 500, d)) /\
  (forall (ops : list op) (i : nat),
     count_reviews i (run_ops ops empty_db) <= 1).
Proof.
  split; [|split].
  - intros d i l rd uid Hl Hp _ st.
    unfold submit_cadre_review, status_of. rewrite Hl, Hp. simpl.
    unfold cadre_review_write; simpl. rewrite !lookup_insert_eq. simpl.
    subst st. destruct (rc_escalate_to_doctor rd); repeat split.
  - intros d i rd uid [Hn | [l [Hl Hp]]]; unfold submit_cadre_review.
    + rewrite Hn. reflexivity.
    + rewrite Hl. destruct (String.eqb_spec (status l) "pending"); [congruence|].
      reflexivity.
  - intros ops i.
    destruct (reviews_inv_run ops empty_db reviews_inv_empty i)
      as [H0 | [H1 _]]; lia.
Qed.




(** C4: counterexample, a COMPLETED case moved back by the status update
    and by [create_cadre_review]. *)
Lemma completed_moves_back_counterexample :
  status_of 1 (snd (update_skin_lesion_status 1 "pending" None db_one_completed))
    = Some "pending" /\
  status_of 1 (snd (create_cadre_review 1
                      (mk_cadre_review_create "notes" None false None) 5
                      db_one_completed))
    = Some "reviewed".
Proof. vm_compute. split; reflexivity. Qed.

(** C4 (amended): only the cadre review endpoint guards its transition,
    and it only moves PENDING to REVIEWED or ESCALATED;
    [create_doctor_consultation] sets COMPLETED, [create_cadre_review]
    sets REVIEWED and [update_skin_lesion_status] sets the given status,
    each whatever the previous status. *)
Theorem status_transitions :
  (forall (i j : nat) (rd : cadre_review_create) (u : nat) (d : db),
     status_of j (snd (submit_cadre_review i rd u d)) <> status_of j d ->
     status_of j d = Some "pending" /\
     (status_of j (snd (submit_cadre_review i rd u d)) = Some "reviewed" \/
      status_of j (snd (submit_cadre_review i rd u d)) = Some "escalated")) /\
  (forall (cd : doctor_consultation_create) (doc : nat) (d : db),
     is_Some (lesions d !! dc_image_id cd) ->
     status_of (dc_image_id cd) (snd (create_doctor_consultation cd doc d))
       = Some "completed") /\
  (forall (i : nat) (rd : cadre_review_create) (u : nat) (d : db),
     is_Some (lesions d !! i) ->
     status_of i (snd (create_cadre_review i rd u d)) = Some "reviewed") /\
  (forall (i : nat) (s : string) (rb : option nat) (d : db),
     is_Some (lesions d !! i) ->
     status_of i (snd (update_skin_lesion_status i s rb d)) = Some s).
Proof.
  split; [|split; [|split]].
  - intros i j rd u d Hch. unfold submit_cadre_review in *.
    destruct (lesions d !! i) as [l|] eqn:Ei; [|simpl in Hch; congruence].
    destruct (String.eqb_spec (status l) "pending") as [Hp|Hp]; [|simpl in Hch; congruence].
    unfold cadre_review_write, status_of in *. simpl in *.
    destruct (decide (i = j)) as [->|Hne].
    + rewrite lookup_insert_eq in *. rewrite Ei. simpl. rewrite Hp.
      split; [reflexivity|].
      destruct (rc_escalate_to_doctor rd); [right|left]; reflexivity.
    + rewrite lookup_insert_ne in Hch by exact Hne. congruence.
  - intros cd doc d [l Hl]. unfold create_doctor_consultation, status_of.
    simpl. rewrite Hl. simpl. rewrite lookup_insert_eq. reflexivity.
  - intros i rd u d [l Hl]. unfold create_cadre_review, status_of.
    simpl. unfold update_skin_lesion_status. simpl. rewrite Hl. simpl.
    rewrite lookup_insert_eq. simpl.
    destruct (negb (u =? 0)%nat && true); reflexivity.
  - intros i s rb d [l Hl]. unfold update_skin_lesion_status, status_of.
    rewrite Hl. simpl. rewrite lookup_insert_eq. simpl.
    destruct rb as [r|]; [destruct (int_truthy (Some r) && _)|]; reflexivity.
Qed.

End LifecycleProofs.

(** * Properties of the review listings *)
Module QueueProofs.

Import Routers.

Lemma insert_desc_perm (r : row) (l : list row) : insert_desc r l ≡ₚ r :: l.
Proof.
  induction l as [|x xs IH]; simpl; [reflexivity|].
  destruct (row_created_at x <=? row_created_at r)%nat; [reflexivity|].
  rewrite IH. apply perm_swap.
Qed.

Lemma sort_created_desc_perm (l : list row) : sort_created_desc l ≡ₚ l.
Proof.
  induction l as [|x xs IH]; simpl; [reflexivity|].
  rewrite insert_desc_perm, IH. reflexivity.
Qed.

Lemma insert_desc_hdrel (x r : row) (l : list row) :
  HdRel (fun a b => (row_created_at b <= row_created_at a)%nat) x l ->
  (row_created_at r <= row_created_at x)%nat ->
  HdRel (fun a b => (row_created_at b <= row_created_at a)%nat) x (insert_desc r l).
Proof.
  intros H Hxr. destruct l as [|y ys]; simpl; [constructor; exact Hxr|].
  destruct (row_created_at y <=? row_created_at r)%nat;
    constructor; [exact Hxr | inversion H; assumption].
Qed.

Lemma insert_desc_sorted (r : row) (l : list row) :
  Sorted (fun a b => (row_created_at b <= row_created_at a)%nat) l ->
  Sorted (fun a b => (row_created_at b <= row_created_at a)%nat) (insert_desc r l).
Proof.
  induction l as [|x xs IH]; simpl; intros H; [constructor; constructor|].
  destruct (row_created_at x <=? row_created_at r)%nat eqn:E.
  - constructor; [exact H|]. constructor. apply Nat.leb_le. exact E.
  - apply Sorted_inv in H as [Hs Hd]. constructor; [apply IH; exact Hs|].
    apply insert_desc_hdrel; [exact Hd|]. apply Nat.leb_gt in E. lia.
Qed.

Lemma sort_created_desc_sorted (l : list row) :
  Sorted (fun a b => (row_created_at b <= row_created_at a)%nat)
    (sort_created_desc l).
Proof.
  induction l as [|x xs IH]; simpl; [constructor|].
  apply insert_desc_sorted. exact IH.
Qed.

(** The rows of the join: a stored lesion whose [patient_id] names a
    stored patient, with its assessment. *)
Lemma joined_spec (patient_of : gmap nat nat) (patients : gset nat) (d : db)
    (r : row) :
  r ∈ joined patient_of patients d <->
  lesions d !! r.1.1 = Some r.1.2 /\ ai_assessments d !! r.1.1 = Some r.2 /\
  (exists p, patient_of !! r.1.1 = Some p /\ p ∈ patients).
Proof.
  destruct r as [[i l] a]. unfold joined. simpl.
  rewrite list_elem_of_omap. split.
  - intros [[i' l'] [Hin Hf]]. apply elem_of_map_to_list in Hin.
    unfold has_patient in Hf.
    destruct (patient_of !! i') as [p|] eqn:Ep; [|discriminate].
    destruct (bool_decide_reflect (p ∈ patients)) as [Hp|]; [|discriminate].
    destruct (ai_assessments d !! i') eqn:Ea; [|discriminate].
    injection Hf as <- <- <-. split; [exact Hin|]. split; [exact Ea|].
    exists p. split; [exact Ep | exact Hp].
  - intros [Hl [Ha [p [Ep Hp]]]]. exists (i, l).
    split; [apply elem_of_map_to_list; exact Hl|].
    unfold has_patient. rewrite Ep, (bool_decide_true _ Hp), Ha.
    reflexivity.
Qed.

(** C7: counterexample, two pending URGENT cases (and an URGENT case
    older than a HIGH one) come newest first in the urgent listing, and
    the service priority queue is empty. *)
Lemma listing_order_counterexample :
  map (fun r => r.1.1)
    (get_urgent_reviews patient_of_two patients_one (db_two_assessed URGENT URGENT))
    = [2; 1] /\
  map (fun r => r.1.1)
    (get_urgent_reviews patient_of_two patients_one (db_two_assessed URGENT HIGH))
    = [2; 1] /\
  get_risk_priority_queue None = [].
Proof. vm_compute. repeat split. Qed.

(** C7 (amended): the urgent listing holds exactly the pending,
    cadre-unreviewed lesions with an assessment of tier URGENT or HIGH
    whose [patient_id] names a stored patient, ordered by assessment
    creation time descending (newest first) with no tier key; the service
    priority queue is always empty. *)
Theorem urgent_listing_newest_first (patient_of : gmap nat nat)
    (patients : gset nat) (d : db) :
  Sorted (fun a b => (row_created_at b <= row_created_at a)%nat)
    (get_urgent_reviews patient_of patients d) /\
  (forall r : row, r ∈ get_urgent_reviews patient_of patients d <->
     lesions d !! r.1.1 = Some r.1.2 /\ ai_assessments d !! r.1.1 = Some r.2 /\
     (exists p, patient_of !! r.1.1 = Some p /\ p ∈ patients) /\
     pending_unreviewed r = true /\
     existsb (risk_eqb (row_risk r)) [URGENT; HIGH] = true) /\
  (forall rl : option (list risk), get_risk_priority_queue rl = []).
Proof.
  split; [|split].
  - apply sort_created_desc_sorted.
  - intros r. unfold get_urgent_reviews.
    rewrite (sort_created_desc_perm _), list_elem_of_filter, joined_spec. tauto.
  - reflexivity.
Qed.

End QueueProofs.

(** * Concurrent cadre reviews *)
Module RaceProofs.

Import Routers.

(** Two steps of one request from [Start], with nothing in between, are
    the sequential handler. *)
Lemma step_twice_is_submit (q : request) (d : db) :
  let '(p, d1) := step q Start d in
  let '(p', d2) := step q p d1 in
  (p', d2) = (Finished (fst (submit_cadre_review (req_image_id q) (req_data q)
                               (req_user q) d)),
              snd (submit_cadre_review (req_image_id q) (req_data q)
                     (req_user q) d)).
Proof.
  unfold step, submit_cadre_review.
  destruct (lesions d !! req_image_id q) as [l|] eqn:E; [|reflexivity].
  destruct (String.eqb (status l) "pending"); [|reflexivity].
  rewrite E. destruct (cadre_review_write _ _ _ l d). reflexivity.
Qed.

(** C9 (amended): when both requests pass the pending check before
    either commits, both succeed, two reviews are appended and the case
    keeps the status and reviewer of the later commit; when the first
    commits before the second checks, the second fails. *)
Theorem racing_cadre_reviews (d : db) (i : nat) (l : lesion)
    (rd1 rd2 : cadre_review_create) (u1 u2 : nat) :
  lesions d !! i = Some l -> status l = "pending" ->
  let q1 := mk_request i rd1 u1 in
  let q2 := mk_request i rd2 u2 in
  let st2 := if rc_escalate_to_doctor rd2 then "escalated" else "reviewed" in
  let raced := interleave [true; false; true; false] q1 q2 Start Start d in
  let serial := interleave [true; true; false; false] q1 q2 Start Start d in
  raced.1.1 = Finished (Review_submitted
                (if rc_escalate_to_doctor rd1 then "escalated" else "reviewed")
                (rc_escalate_to_doctor rd1)) /\
  raced.1.2 = Finished (Review_submitted st2 (rc_escalate_to_doctor rd2)) /\
  count_reviews i raced.2 = count_reviews i d + 2 /\
  status_of i raced.2 = Some st2 /\
  (reviewed_by_cadre <$> lesions raced.2 !! i) = Some (Some u2) /\
  serial.1.2 = Finished (Http_error 500) /\
  count_reviews i serial.2 = count_reviews i d + 1.
Proof.
  intros Hl Hp q1 q2 st2 raced serial.
  subst q1 q2 st2 raced serial.
  destruct (rc_escalate_to_doctor rd1) eqn:E1,
           (rc_escalate_to_doctor rd2) eqn:E2;
    repeat progress (simpl; rewrite ?Hl, ?Hp, ?lookup_insert_eq, ?E1, ?E2);
    unfold count_reviews, status_of; simpl;
    rewrite ?lookup_insert_eq, ?filter_app, ?length_app;
    rewrite ?filter_cons_True by reflexivity; simpl;
    repeat split; first [reflexivity | lia].
Qed.

(** C9: counterexample, two racing reviews of one fresh pending case
    both succeed and leave two reviews. *)
Lemma racing_reviews_counterexample :
  let out := interleave [true; false; true; false]
               (mk_request 1 review_plain 5) (mk_request 1 review_escalate 6)
               Start Start db_one_pending in
  out.1.1 = Finished (Review_submitted "reviewed" false) /\
  out.1.2 = Finished (Review_submitted "escalated" true) /\
  count_reviews 1 out.2 = 2.
Proof. vm_compute. repeat split. Qed.

End RaceProofs.

(** * The theorems at concrete inputs *)
(** * Lemmas shared by the proofs below *)
Module ExtraLemmas.

Import ModelConfig Db Crud Scenarios.

Import PredictionService.

(** Turn every score comparison [Py.Qltb x y] of the goal into a case
    with its inequality. *)
Ltac split_Qltb :=
  repeat match goal with
  | |- context [Py.Qltb ?x ?y] =>
      let E := fresh "E" in
      destruct (Py.Qltb x y) eqn:E;
      [apply RiskProofs.Qltb_true in E | apply RiskProofs.Qltb_false in E]
  end.

Ltac thresholds :=
  unfold LOW_CONFIDENCE, MEDIUM_CONFIDENCE, HIGH_CONFIDENCE,
    professional_review_threshold, urgent_threshold in *.

(** Case split on a catalog label [In label (map fst RISK_LEVELS)]. *)
Ltac catalog H :=
  simpl in H; repeat destruct H as [H|H]; subst; try contradiction.

Lemma existsb_eqb_In (x : string) (l : list string) :
  existsb (String.eqb x) l = true <-> In x l.
Proof.
  induction l as [|a l IH]; simpl; [split; [discriminate|contradiction]|].
  rewrite orb_true_iff, IH, String.eqb_eq. split; intros [H|H]; auto.
Qed.

(** The live engine's base tier is never UNCERTAIN; it is URGENT only for
    the melanoma label, and HIGH or URGENT only for BCC, MEL and SCC. *)
Lemma live_base_risk (label : string) :
  dict_get label RISK_LEVELS MEDIUM <> UNCERTAIN /\
  (dict_get label RISK_LEVELS MEDIUM = URGENT <-> label = "MEL (Melanoma)") /\
  (is_high_or_urgent (dict_get label RISK_LEVELS MEDIUM) = true <->
   In label ["BCC (Basal cell carcinoma)"; "MEL (Melanoma)";
             "SCC (Squamous cell carcinoma)"]).
Proof.
  unfold RISK_LEVELS. simpl.
  repeat match goal with
  | |- context [String.eqb label ?k] =>
      destruct (String.eqb_spec label k) as [->|?]
  end; (split; [discriminate|split]); split; intros; simpl in *;
    intuition (try congruence).
Qed.

End ExtraLemmas.

Module EngineExtraProofs.

Import ModelConfig Db Crud Scenarios.

Import PredictionService Classifier ExtraLemmas.

(** X1: The classifier's get_confidence_level and the predictor's
    _get_confidence_level return the same level for every confidence,
    and the level never decreases as the confidence grows. In the
    predictor's _assess_risk the risk level is UNCERTAIN exactly when
    the confidence level is VERY_LOW. *)
Theorem confidence_levels_consistent :
  (forall c, Classifier.get_confidence_level c = PredictionService.get_confidence_level c) /\
  (forall c1 c2, (c1 <= c2)%Q ->
     confidence_rank (Classifier.get_confidence_level c1)
     <= confidence_rank (Classifier.get_confidence_level c2)) /\
  (forall label c region,
     risk_level (assess_risk label c region) = UNCERTAIN <->
     PredictionService.confidence_level (assess_risk label c region) = C_VERY_LOW).
Proof.
  split; [|split].
  - reflexivity.
  - intros c1 c2 Hle. unfold Classifier.get_confidence_level.
    split_Qltb; simpl; thresholds; first [lia | exfalso; lra].
  - intros label c region.
    destruct (live_base_risk label) as [Hnu _].
    unfold assess_risk, PredictionService.get_confidence_level.
    destruct (dict_get label RISK_LEVELS MEDIUM) eqn:Eb; try congruence;
    split_Qltb; destruct (PredictionService.in_high_risk_region region);
      simpl; thresholds; split; intros; try discriminate; try reflexivity;
      exfalso; lra.
Qed.


(** X2: For a catalog label, whenever
    model_config.needs_professional_review is true the predictor's
    _assess_risk also asks for professional review. The predictor asks
    while model_config does not exactly for ACK, NEV or SEK with
    confidence at least 0.5 and either below 0.6 or in the predictor's
    high-risk region list. *)
Theorem review_flags_compared (label : string) (c : Q) (region : option string) :
  In label (map fst RISK_LEVELS) ->
  (ModelConfig.needs_professional_review label c = true ->
   PredictionService.needs_professional_review (assess_risk label c region) = true) /\
  (PredictionService.needs_professional_review (assess_risk label c region) = true /\
   ModelConfig.needs_professional_review label c = false <->
   In label ["ACK (Actinic keratoses)"; "NEV (Nevus/Mole)"; "SEK (Seborrheic keratosis)"] /\
   (professional_review_threshold <= c)%Q /\
   ((c < MEDIUM_CONFIDENCE)%Q \/ PredictionService.in_high_risk_region region = true)).
Proof.
  intros Hl. unfold ModelConfig.needs_professional_review, assess_risk.
  destruct (PredictionService.in_high_risk_region region);
  catalog Hl; simpl; split_Qltb; simpl; thresholds;
    split; try (intros; first [reflexivity | discriminate | exfalso; lra]);
    split; intros H; simpl in H; intuition (first [discriminate | reflexivity | lra | (exfalso; lra) | auto 10]).
Qed.

(** X3: For a catalog label, the classifier's analyze_lesion asks for
    doctor review exactly when the risk level is HIGH or URGENT. It asks
    for a doctor but not for a cadre exactly for ACK in a model_config
    high-risk region with confidence at least 0.5. *)
Theorem analyze_lesion_workflow (label : string) (c : Q) (region : option string) :
  In label (map fst RISK_LEVELS) ->
  let a := analyze_top_prediction label c region in
  (needs_doctor_review (an_workflow a) = true <->
   an_risk_level a = HIGH \/ an_risk_level a = URGENT) /\
  (needs_doctor_review (an_workflow a) = true /\ needs_cadre_review (an_workflow a) = false <->
   label = "ACK (Actinic keratoses)" /\ ModelConfig.in_high_risk_region region = true /\
   (professional_review_threshold <= c)%Q).
Proof.
  intros Hl a. subst a.
  unfold analyze_top_prediction, get_risk_level, ModelConfig.needs_professional_review.
  destruct (ModelConfig.in_high_risk_region region);
  catalog Hl; simpl; split_Qltb; simpl; thresholds;
    (split; [split; intros H; intuition (first [discriminate | reflexivity | lra | (exfalso; lra) | auto])|]);
    split; intros H; intuition (first [discriminate | reflexivity | lra | (exfalso; lra) | auto 10]).
Qed.

End EngineExtraProofs.

Module PredictorExtraProofs.

Import ModelConfig Db Crud Scenarios.

Import PredictionService Classifier Predictor ExtraLemmas.

(** X4: The predictor's _generate_recommendations always puts the same
    four general items after the three tier items and returns 7 or 8
    items. It returns 8 exactly when the body region, lower-cased, is
    face, neck, hands or feet, and such a region is also high-risk for
    model_config. *)
Theorem recommendations_shape (ra : risk_assessment) (region : option string) :
  let recs := generate_recommendations ra region in
  firstn 4 (skipn 3 recs) =
    ["📱 Save this analysis for your healthcare provider";
     "🧴 Use sunscreen daily (SPF 30+)";
     "👕 Wear protective clothing when outdoors";
     "🔍 Perform monthly self-examinations"] /\
  (length recs = 7 \/ length recs = 8) /\
  (length recs = 8 <->
   exists s, region = Some s /\ In (Py.lower s) ["face"; "neck"; "hands"; "feet"]) /\
  (length recs = 8 -> ModelConfig.in_high_risk_region region = true).
Proof.
  intros recs. subst recs. unfold generate_recommendations.
  destruct region as [s|].
  - unfold ModelConfig.in_high_risk_region, Py.truthy.
    destruct (String.eqb s "") eqn:Es; cbn [negb andb];
      [apply String.eqb_eq in Es; subst s; simpl|].
    + destruct (PredictionService.risk_level ra); simpl;
        (split; [reflexivity|split; [auto|split; [split; [discriminate|]|discriminate]]]);
        intros [s' [Hs Hin]]; injection Hs as <-; simpl in Hin; intuition discriminate.
    + assert (Hiff : (exists s', Some s = Some s' /\
                       In (Py.lower s') ["face"; "neck"; "hands"; "feet"]) <->
                     In (Py.lower s) ["face"; "neck"] \/ In (Py.lower s) ["hands"; "feet"]).
      { split.
        - intros [s' [Hs Hin]]. injection Hs as <-. simpl in Hin. simpl. tauto.
        - intros H. exists s. split; [reflexivity|]. simpl in H |- *. tauto. }
      rewrite Hiff. clear Hiff.
      assert (Hreg : In (Py.lower s) ["face"; "neck"] \/ In (Py.lower s) ["hands"; "feet"] ->
                     existsb (String.eqb (Py.lower s)) high_risk_regions = true).
      { intros H. apply existsb_eqb_In. unfold high_risk_regions. simpl in H |- *. tauto. }
      destruct (existsb (String.eqb (Py.lower s)) ["face"; "neck"]) eqn:E1;
      [|destruct (existsb (String.eqb (Py.lower s)) ["hands"; "feet"]) eqn:E2].
      * apply existsb_eqb_In in E1.
        destruct (PredictionService.risk_level ra); simpl;
          (split; [reflexivity|split; [auto|split; [tauto|intros _; apply Hreg; tauto]]]).
      * apply existsb_eqb_In in E2.
        destruct (PredictionService.risk_level ra); simpl;
          (split; [reflexivity|split; [auto|split; [tauto|intros _; apply Hreg; tauto]]]).
      * apply not_true_iff_false in E1, E2. rewrite existsb_eqb_In in E1, E2.
        destruct (PredictionService.risk_level ra); simpl;
          (split; [reflexivity|split; [auto|split; [split; [discriminate|intros [H|H]; contradiction]|discriminate]]]).
  - destruct (PredictionService.risk_level ra); simpl;
      (split; [reflexivity|split; [auto|split; [split; [discriminate|]|discriminate]]]);
      intros [s' [Hs _]]; discriminate.
Qed.

Lemma insert_by_confidence_perm (p : prediction) (l : list prediction) :
  Permutation (insert_by_confidence p l) (p :: l).
Proof.
  induction l as [|x xs IH]; simpl; [reflexivity|].
  destruct (Qle_bool (confidence x) (confidence p)); [reflexivity|].
  rewrite IH. apply perm_swap.
Qed.

Lemma sort_by_confidence_perm (l : list prediction) :
  Permutation (sort_by_confidence l) l.
Proof.
  induction l as [|x xs IH]; simpl; [reflexivity|].
  rewrite insert_by_confidence_perm, IH. reflexivity.
Qed.

Lemma insert_by_confidence_sorted (p : prediction) (l : list prediction) :
  Sorted conf_desc l -> Sorted conf_desc (insert_by_confidence p l).
Proof.
  induction 1 as [|x xs Hs IH Hhd]; simpl; [repeat constructor|].
  destruct (Qle_bool (confidence x) (confidence p)) eqn:E.
  - apply Qle_bool_iff in E. repeat constructor; assumption.
  - assert (Hlt : (confidence p <= confidence x)%Q).
    { apply Qlt_le_weak, Qnot_le_lt. intros H. apply Qle_bool_iff in H. congruence. }
    constructor; [exact IH|].
    destruct xs as [|y ys]; simpl.
    + constructor. exact Hlt.
    + inversion Hhd; subst.
      destruct (Qle_bool (confidence y) (confidence p)); constructor; assumption.
Qed.

Lemma sort_by_confidence_sorted (l : list prediction) :
  Sorted conf_desc (sort_by_confidence l).
Proof.
  induction l; simpl; [constructor|]. apply insert_by_confidence_sorted. assumption.
Qed.

(** The head of the sorted list has the largest confidence, and among
    equal confidences the smallest class id, when the ids increase along
    the input. *)
Lemma sort_by_confidence_head (l : list prediction) :
  StronglySorted id_lt l ->
  forall top rest, sort_by_confidence l = top :: rest ->
  In top l /\
  forall p, In p l -> (confidence p <= confidence top)%Q /\
    ((confidence p == confidence top)%Q -> (class_id top <= class_id p)%nat).
Proof.
  intros Hsl. induction Hsl as [|x xs Hs IH Hx]; intros top rest Hsort; simpl in Hsort;
    [discriminate|].
  destruct (sort_by_confidence xs) as [|h r] eqn:Exs.
  - simpl in Hsort. injection Hsort as <- <-.
    assert (xs = []) as ->.
    { apply Permutation_nil. rewrite <- Exs. first [apply sort_by_confidence_perm | symmetry; apply sort_by_confidence_perm]. }
    split; [left; reflexivity|]. intros p [<-|[]]. split; [apply Qle_refl|lia].
  - destruct (IH h r eq_refl) as [Hin Hmax].
    simpl in Hsort. destruct (Qle_bool (confidence h) (confidence x)) eqn:E.
    + injection Hsort as <- <-. apply Qle_bool_iff in E.
      split; [left; reflexivity|]. intros p [<-|Hp]; [split; [apply Qle_refl|lia]|].
      destruct (Hmax p Hp) as [Hle _]. split; [eapply Qle_trans; eassumption|].
      intros _. rewrite List.Forall_forall in Hx. specialize (Hx p Hp). unfold id_lt in Hx. lia.
    + injection Hsort as <- _.
      assert (Hlt : (confidence x < confidence h)%Q).
      { apply Qnot_le_lt. intros H. apply Qle_bool_iff in H. congruence. }
      split; [right; exact Hin|]. intros p [<-|Hp]; [|exact (Hmax p Hp)].
      split; [apply Qlt_le_weak; exact Hlt|].
      intros Heq. exfalso. rewrite Heq in Hlt. apply (Qlt_irrefl _ Hlt).
Qed.

Lemma enumerate_results_ids (idx : nat) (scores : list Q) (p : prediction) :
  In p (enumerate_results idx scores) -> (idx <= class_id p)%nat.
Proof.
  revert idx. induction scores as [|s ss IH]; intros idx; simpl; [contradiction|].
  intros [<-|Hp]; simpl; [lia|]. specialize (IH (S idx) Hp). lia.
Qed.

Lemma enumerate_results_sorted_ids (idx : nat) (scores : list Q) :
  StronglySorted id_lt (enumerate_results idx scores).
Proof.
  revert idx. induction scores as [|s ss IH]; intros idx; simpl; constructor; [apply IH|].
  apply List.Forall_forall. intros p Hp. apply enumerate_results_ids in Hp.
  unfold id_lt. simpl. lia.
Qed.

Lemma enumerate_results_nil (idx : nat) (scores : list Q) :
  enumerate_results idx scores = [] <-> scores = [].
Proof. destruct scores; simpl; split; congruence. Qed.

Lemma sort_by_confidence_nil (l : list prediction) :
  sort_by_confidence l = [] <-> l = [].
Proof.
  split; [|intros ->; reflexivity].
  intros H. apply Permutation_nil. rewrite <- H. first [apply sort_by_confidence_perm | symmetry; apply sort_by_confidence_perm].
Qed.

Lemma predict_error_nil (scores : list Q) :
  predict scores = Predict_error <-> scores = [].
Proof.
  unfold predict. rewrite <- (enumerate_results_nil 0), <- sort_by_confidence_nil.
  destruct (sort_by_confidence (enumerate_results 0 scores)); split; congruence.
Qed.

(** X5: The classifier's predict fails, and analyze_lesion returns
    nothing, exactly when the score list is empty. Otherwise the
    predictions are a permutation of the enumerated scores sorted by
    descending confidence, and the top prediction is the first one, has
    the highest confidence, and has the smallest class index among ties. *)
Theorem predict_ranking (scores : list Q) :
  (predict scores = Predict_error <-> scores = []) /\
  (forall region, Classifier.analyze_lesion scores region = None <-> scores = []) /\
  (forall preds top, predict scores = Predicted preds top ->
     Permutation preds (enumerate_results 0 scores) /\
     Sorted (fun a b => (confidence b <= confidence a)%Q) preds /\
     hd_error preds = Some top /\
     forall p, In p preds ->
       (confidence p <= confidence top)%Q /\
       ((confidence p == confidence top)%Q -> (class_id top <= class_id p)%nat)).
Proof.
  pose proof (predict_error_nil scores) as Herr.
  split; [exact Herr|split].
  - intros region. rewrite <- Herr. unfold Classifier.analyze_lesion.
    destruct (predict scores); split; congruence.
  - intros preds top. unfold predict.
    destruct (sort_by_confidence (enumerate_results 0 scores)) as [|t r] eqn:E;
      [discriminate|].
    intros H. injection H as <- <-. rewrite <- E.
    split; [apply sort_by_confidence_perm|].
    split; [apply sort_by_confidence_sorted|].
    rewrite E. split; [reflexivity|].
    destruct (sort_by_confidence_head _ (enumerate_results_sorted_ids 0 scores) t r E)
      as [_ Hmax].
    intros p Hp. apply Hmax. rewrite <- (sort_by_confidence_perm (enumerate_results 0 scores)).
    rewrite E. exact Hp.
Qed.

End PredictorExtraProofs.

Module ServiceExtraProofs.

Import ModelConfig Db Crud Scenarios.

Import PredictionService Classifier Predictor LesionService ExtraLemmas
  PredictorExtraProofs.

Lemma analyze_skin_lesion_success (ai_initialized image_valid : bool)
    (scores : list Q) (region : option string) :
  ar_success (analyze_skin_lesion ai_initialized image_valid scores region) = true <->
  ai_initialized = true /\ image_valid = true /\ scores <> [].
Proof.
  unfold analyze_skin_lesion, ai_predict_skin_lesion, predict_lesion.
  destruct ai_initialized, image_valid; simpl; try (split; [discriminate|tauto]).
  rewrite <- predict_error_nil.
  destruct (predict scores); simpl; split; intros; try tauto; try congruence.
  split; [reflexivity|split; [reflexivity|discriminate]].
Qed.

Lemma analyze_skin_lesion_display (ai_initialized image_valid : bool)
    (scores : list Q) (region : option string) :
  let r := analyze_skin_lesion ai_initialized image_valid scores region in
  ar_success r = true -> exists dd, format_analysis_for_display r = Some dd.
Proof.
  intros r. subst r.
  unfold analyze_skin_lesion, ai_predict_skin_lesion, predict_lesion.
  destruct ai_initialized, image_valid; simpl; try discriminate.
  destruct (predict scores); simpl; [|discriminate]. intros _. eexists. reflexivity.
Qed.

(** X6: analyze_skin_lesion succeeds exactly when the AI service is
    initialised, the image is valid and there is at least one score; on
    failure it returns no summary and sets both review flags. On success
    the doctor flag is set exactly for a melanoma top prediction with
    confidence at least 0.4, and the cadre flag is clear exactly when
    the confidence is at least 0.6, the label is not BCC, MEL or SCC,
    and the region is not in the predictor's high-risk list. *)
Theorem analyze_skin_lesion_flags (ai_initialized image_valid : bool)
    (scores : list Q) (region : option string) :
  let r := analyze_skin_lesion ai_initialized image_valid scores region in
  (ar_success r = true <->
   ai_initialized = true /\ image_valid = true /\ scores <> []) /\
  (ar_success r = false ->
   ar_summary r = None /\ ar_needs_cadre_review r = true /\
   ar_needs_doctor_review r = true) /\
  (forall preds top, ar_success r = true -> predict scores = Predicted preds top ->
     (ar_needs_doctor_review r = true <->
      label top = "MEL (Melanoma)" /\ (LOW_CONFIDENCE <= confidence top)%Q) /\
     (ar_needs_cadre_review r = false <->
      (MEDIUM_CONFIDENCE <= confidence top)%Q /\
      ~ In (label top) ["BCC (Basal cell carcinoma)"; "MEL (Melanoma)";
                        "SCC (Squamous cell carcinoma)"] /\
      PredictionService.in_high_risk_region region = false)).
Proof.
  intros r. subst r.
  unfold analyze_skin_lesion, ai_predict_skin_lesion, predict_lesion.
  destruct ai_initialized; [|simpl; split; [split; [discriminate|intros [H _]; discriminate]|
    split; [auto|intros; discriminate]]].
  destruct image_valid; [|simpl; split; [split; [discriminate|intros [_ [H _]]; discriminate]|
    split; [auto|intros; discriminate]]].
  cbn [negb]. destruct (predict scores) as [preds0 top0|] eqn:Ep.
  - assert (Hne : scores <> []).
    { intros ->. discriminate. }
    simpl. split; [split; [auto|reflexivity]|split; [discriminate|]].
    intros preds top _ Heq. injection Heq as <- <-.
    destruct (live_base_risk (label top0)) as [Hnu [Hurg Hhou]].
    revert Hnu Hurg Hhou. unfold assess_risk.
    destruct (dict_get (label top0) RISK_LEVELS MEDIUM) eqn:Eb;
      intros Hnu Hurg Hhou; try congruence; simpl in Hhou; split_Qltb;
      destruct (PredictionService.in_high_risk_region region); simpl; thresholds;
      (split; split; [intros H; try discriminate | intros H | intros H; try discriminate | intros H]);
      intuition (try discriminate; try congruence; try lra).
  - apply predict_error_nil in Ep. simpl. split; [split; [discriminate|tauto]|].
    split; [auto|intros; discriminate].
Qed.

(** X7: upload_and_analyze_lesion answers 400 exactly when the content
    type is present and does not start with image/. It returns an
    analysis exactly when the content type is an image type, the image
    opens, the AI service is initialised, the image is valid and there
    are scores; every other outcome is an error 400 or 500. *)
Theorem upload_outcomes (content_type : option string)
    (image_opens ai_initialized image_valid : bool) (scores : list Q)
    (region : option string) :
  let u := upload_and_analyze_lesion content_type image_opens ai_initialized
             image_valid scores region in
  (u = Upload_error 400 <->
   exists ct, content_type = Some ct /\ String.prefix "image/" ct = false) /\
  ((exists dd c d, u = Upload_ok dd c d) <->
   (exists ct, content_type = Some ct /\ String.prefix "image/" ct = true) /\
   image_opens = true /\ ai_initialized = true /\ image_valid = true /\
   scores <> []) /\
  (forall code, u = Upload_error code -> code = 400%nat \/ code = 500%nat).
Proof.
  intros u. subst u. unfold upload_and_analyze_lesion.
  destruct content_type as [ct|].
  2: { split; [split; [discriminate|intros [ct [H _]]; discriminate]|].
       split; [split; [intros (dd & c & d & H); discriminate|
                       intros [[ct [H _]] _]; discriminate]|].
       intros code H. injection H as <-. auto. }
  destruct (String.prefix "image/" ct) eqn:Ep; cbn [negb].
  2: { split; [split; [eauto|reflexivity]|].
       split; [split; [intros (dd & c & d & H); discriminate|
                       intros [[ct' [H H']] _]; injection H as <-; congruence]|].
       intros code H. injection H as <-. auto. }
  destruct image_opens; cbn [negb].
  2: { split; [split; [discriminate|intros [ct' [H H']]; injection H as <-; congruence]|].
       split; [split; [intros (dd & c & d & H); discriminate|
                       intros (_ & H & _); discriminate]|].
       intros code H. injection H as <-. auto. }
  pose proof (analyze_skin_lesion_success ai_initialized image_valid scores region) as Hs.
  pose proof (analyze_skin_lesion_display ai_initialized image_valid scores region) as Hd.
  simpl in Hd.
  destruct (ar_success (analyze_skin_lesion ai_initialized image_valid scores region)) eqn:Ea;
    cbn [negb].
  - destruct (Hd eq_refl) as [dd Hdd]. rewrite Hdd.
    split; [split; [discriminate|intros [ct' [H H']]; injection H as <-; congruence]|].
    split; [split; [intros _; split; [eauto|split; [reflexivity|apply Hs; reflexivity]]|
                    intros _; eauto]|].
    intros code H. discriminate.
  - split; [split; [discriminate|intros [ct' [H H']]; injection H as <-; congruence]|].
    split; [split; [intros (dd & c & d & H); discriminate|
                    intros (_ & _ & H); apply Hs in H; discriminate]|].
    intros code H. injection H as <-. auto.
Qed.

(** X8: A successful upload shows the first five generated
    recommendations, categorised by tier (urgent, high or standard),
    then standard, standard, general, general. It shows the labels of
    the top three predictions, the assessed risk level and the body
    region, and its cadre and doctor flags are the assessment's review
    and urgent-attention flags. *)
Theorem upload_display (content_type : option string)
    (image_opens ai_initialized image_valid : bool) (scores : list Q)
    (region : option string) (dd : display_data) (cadre doctor : bool)
    (preds : list prediction) (top : prediction) :
  upload_and_analyze_lesion content_type image_opens ai_initialized image_valid
    scores region = Upload_ok dd cadre doctor ->
  predict scores = Predicted preds top ->
  let ra := assess_risk (label top) (confidence top) region in
  map fst (dd_recommendations dd) = take 5 (generate_recommendations ra region) /\
  map snd (dd_recommendations dd) =
    [match PredictionService.risk_level ra with
     | URGENT => "urgent" | HIGH => "high" | _ => "standard" end;
     "standard"; "standard"; "general"; "general"] /\
  map pd_label (dd_predictions dd) = map label (take 3 preds) /\
  rd_level (dd_risk_assessment dd) = PredictionService.risk_level ra /\
  dd_needs_cadre_review dd = cadre /\
  cadre = PredictionService.needs_professional_review ra /\
  dd_needs_doctor_review dd = doctor /\
  doctor = needs_urgent_attention ra /\
  dd_body_region dd = region.
Proof.
  intros Hu Hp ra.
  unfold upload_and_analyze_lesion in Hu.
  destruct content_type as [ct|]; [|discriminate].
  destruct (String.prefix "image/" ct); [|discriminate].
  destruct image_opens; [|discriminate]. cbn [negb] in Hu.
  unfold analyze_skin_lesion, ai_predict_skin_lesion, predict_lesion in Hu.
  destruct ai_initialized; [|discriminate].
  destruct image_valid; [|discriminate]. cbn [negb] in Hu.
  rewrite Hp in Hu. fold ra in Hu. simpl in Hu.
  injection Hu as <- <- <-. simpl.
  split; [rewrite map_map; apply map_id|].
  split.
  - unfold generate_recommendations.
    destruct (PredictionService.risk_level ra); reflexivity.
  - split; [rewrite map_map; reflexivity|]. repeat split; reflexivity.
Qed.

End ServiceExtraProofs.

Module BarProofs.

Import ModelConfig Db Crud Scenarios.
Import LesionService.

Lemma py_repeat_single (x n : Z) :
  py_repeat [x] n = repeat x (Z.to_nat n).
Proof.
  unfold py_repeat. induction (Z.to_nat n) as [|m IH]; simpl; [reflexivity|].
  rewrite IH. reflexivity.
Qed.

Lemma quot_bounds (a : Z) (b : positive) :
  let k := Z.quot a (Zpos b) in
  ((0 <= a)%Z -> (k * Zpos b <= a < (k + 1) * Zpos b)%Z) /\
  ((a <= 0)%Z -> ((k - 1) * Zpos b < a <= k * Zpos b)%Z).
Proof.
  intros k. subst k. pose proof (Z.quot_rem' a (Zpos b)) as Hqr.
  split; intros Ha.
  - pose proof (Z.rem_bound_pos a (Zpos b) Ha ltac:(lia)). lia.
  - pose proof (Z.rem_bound_pos_neg a (Zpos b) ltac:(lia) Ha). lia.
Qed.

Lemma quot_range (a : Z) (b : positive) :
  ((0 <= Z.quot a (Zpos b))%Z <-> (- Zpos b < a)%Z) /\
  ((Z.quot a (Zpos b) <= 20)%Z <-> (a < 21 * Zpos b)%Z).
Proof.
  destruct (quot_bounds a b) as [Hp Hn].
  destruct (Z.le_gt_cases 0 a) as [Ha|Ha].
  - specialize (Hp Ha). split; split; intros; nia.
  - specialize (Hn ltac:(lia)). split; split; intros; nia.
Qed.

(** X9: _create_confidence_bar has 20 characters exactly when the
    percentage is strictly between -5 and 105. For a non-negative
    percentage p it is floor(p/5) full blocks followed by the rest of 20
    in light shades; at 105 or more it is all full blocks and at -5 or
    less all light shades, in both cases longer than 20. *)
Theorem confidence_bar_shape (p : Q) :
  let bar := create_confidence_bar p in
  (length bar = 20%nat <-> (-5 < p /\ p < 105)%Q) /\
  ((0 <= p)%Q ->
   bar = repeat FULL_BLOCK (Z.to_nat (Qfloor (p / 5)))
         ++ repeat LIGHT_SHADE (20 - Z.to_nat (Qfloor (p / 5))))%list /\
  ((105 <= p)%Q -> bar = repeat FULL_BLOCK (length bar) /\ (20 < length bar)%nat) /\
  ((p <= -5)%Q -> bar = repeat LIGHT_SHADE (length bar) /\ (20 < length bar)%nat).
Proof.
  intros bar. subst bar. unfold create_confidence_bar, py_int.
  rewrite !py_repeat_single.
  assert (Hq : (p / 5 * 5 == p)%Q) by (field; discriminate).
  revert Hq. destruct (p / 5)%Q as [a b] eqn:Epq. intros Hq.
  assert (Hlo : (-5 < p)%Q <-> (-1 < (a # b))%Q) by (split; intros; lra).
  assert (Hhi : (p < 105)%Q <-> ((a # b) < 21)%Q) by (split; intros; lra).
  assert (Hnn : (0 <= p)%Q <-> (0 <= (a # b))%Q) by (split; intros; lra).
  assert (Hle105 : (105 <= p)%Q -> (21 <= (a # b))%Q) by (intros; lra).
  assert (Hlem5 : (p <= -5)%Q -> ((a # b) <= -1)%Q) by (intros; lra).
  rewrite Hlo, Hhi, Hnn. clear Hlo Hhi Hnn Hq Epq.
  unfold Qlt, Qle, Qfloor in *. simpl in *.
  destruct (quot_range a b) as [R0 R20].
  destruct (quot_bounds a b) as [Bp Bn].
  set (k := Z.quot a (Zpos b)) in *.
  rewrite !length_app, !repeat_length.
  split; [|split; [|split]].
  - split; intros H.
    + destruct (Z.le_gt_cases 0 k); destruct (Z.le_gt_cases k 20); lia.
    + lia.
  - intros Ha. rewrite <- Z.quot_div_nonneg by lia. fold k.
    rewrite Z2Nat.inj_sub by lia. reflexivity.
  - intros H. specialize (Hle105 H).
    assert (Hk : (20 < k)%Z) by lia.
    replace (Z.to_nat (20 - k)) with 0%nat by lia.
    simpl. rewrite app_nil_r, Nat.add_0_r. split; [reflexivity|lia].
  - intros H. specialize (Hlem5 H).
    assert (Hk : (k < 0)%Z) by lia.
    replace (Z.to_nat k) with 0%nat by lia.
    simpl. split; [reflexivity|lia].
Qed.

End BarProofs.

Module QueryExtraProofs.

Import ModelConfig Db Crud Scenarios.

Import Queries.

Lemma risk_eqb_true (a b : risk) : risk_eqb a b = true <-> a = b.
Proof. destruct a, b; simpl; split; congruence. Qed.

Lemma existsb_risk_In (r : risk) (rl : list risk) :
  existsb (risk_eqb r) rl = true <-> In r rl.
Proof.
  induction rl as [|t rl IH]; simpl; [split; [discriminate|contradiction]|].
  rewrite orb_true_iff, IH, risk_eqb_true. split; intros [H|H]; auto.
Qed.

Lemma elem_of_drop_sub {A} (x : A) (n : nat) (l : list A) : x ∈ drop n l -> x ∈ l.
Proof.
  intros H. rewrite <- (take_drop n l). apply elem_of_app. right. exact H.
Qed.

Lemma elem_of_take_sub {A} (x : A) (n : nat) (l : list A) : x ∈ take n l -> x ∈ l.
Proof.
  intros H. rewrite <- (take_drop n l). apply elem_of_app. left. exact H.
Qed.

(** X10: crud.get_pending_reviews returns at most limit rows, each a
    stored lesion that needs professional review and has no cadre
    reviewer, and with a non-empty risk filter each has an assessment of
    a listed tier. An empty filter behaves like no filter, and when the
    table fits in the limit the unfiltered first page holds exactly
    those lesions, whatever their status. *)
Theorem crud_pending_reviews (risk_levels : option (list risk)) (skip limit : nat)
    (d : db) :
  let res := Queries.get_pending_reviews risk_levels skip limit d in
  (length res <= limit)%nat /\
  (forall i l, (i, l) ∈ res ->
     lesions d !! i = Some l /\ Db.needs_professional_review l = true /\
     reviewed_by_cadre l = None /\
     (forall t ts, risk_levels = Some (t :: ts) ->
        exists a, ai_assessments d !! i = Some a /\ In (Db.risk_level a) (t :: ts))) /\
  Queries.get_pending_reviews (Some []) skip limit d
    = Queries.get_pending_reviews None skip limit d /\
  ((size (lesions d) <= limit)%nat ->
   forall i l, (i, l) ∈ Queries.get_pending_reviews None 0 limit d <->
     lesions d !! i = Some l /\ Db.needs_professional_review l = true /\
     reviewed_by_cadre l = None).
Proof.
  intros res. subst res. unfold Queries.get_pending_reviews.
  split; [rewrite length_take; lia|].
  split; [|split; [reflexivity|]].
  - intros i l Hin. apply elem_of_take_sub, elem_of_drop_sub in Hin.
    assert (Hq : (i, l) ∈ filter (fun r => review_candidate r.2 = true)
                             (map_to_list (lesions d)) ->
              lesions d !! i = Some l /\ Db.needs_professional_review l = true /\
              reviewed_by_cadre l = None).
    { intros H. apply list_elem_of_filter in H as [Hc Hm].
      apply elem_of_map_to_list in Hm. unfold review_candidate, unreviewed in Hc.
      simpl in Hc. apply andb_true_iff in Hc as [Hc1 Hc2].
      destruct (reviewed_by_cadre l); [discriminate|]. auto. }
    destruct risk_levels as [[|t0 ts0]|].
    + destruct (Hq Hin) as (H1 & H2 & H3). repeat split; auto. intros; discriminate.
    + apply list_elem_of_filter in Hin as [Ha Hin].
      destruct (Hq Hin) as (H1 & H2 & H3). repeat split; auto.
      intros t ts Heq. injection Heq as <- <-.
      unfold assessed_in in Ha. simpl in Ha.
      destruct (ai_assessments d !! i) as [a|]; [|discriminate].
      exists a. split; [reflexivity|]. apply existsb_risk_In. exact Ha.
    + destruct (Hq Hin) as (H1 & H2 & H3). repeat split; auto. intros; discriminate.
  - intros Hsz i l. rewrite drop_0, take_ge.
    2: { etransitivity; [|exact Hsz]. rewrite <- length_map_to_list.
         apply length_filter. }
    rewrite list_elem_of_filter, elem_of_map_to_list. unfold review_candidate, unreviewed.
    simpl. rewrite andb_true_iff.
    destruct (reviewed_by_cadre l); split; intros; intuition congruence.
Qed.

(** Every row falls in exactly one of the five tier filters or has no
    assessment. *)
Lemma tier_partition (d : db) (L : list (nat * lesion)) :
  length L =
    (length (filter (fun r => assessed_in d [URGENT] r.1 = true) L)
     + length (filter (fun r => assessed_in d [HIGH] r.1 = true) L)
     + length (filter (fun r => assessed_in d [MEDIUM] r.1 = true) L)
     + length (filter (fun r => assessed_in d [LOW] r.1 = true) L)
     + length (filter (fun r => assessed_in d [UNCERTAIN] r.1 = true) L)
     + length (filter (fun r => ai_assessments d !! r.1 = None) L))%nat.
Proof.
  induction L as [|x L IH]; [reflexivity|].
  rewrite !filter_cons.
  destruct (ai_assessments d !! x.1) as [a|] eqn:E;
    [destruct (Db.risk_level a) eqn:Er|];
    repeat case_decide; simpl; unfold assessed_in in *; rewrite ?E, ?Er in *;
    simpl in *; try discriminate; try congruence; lia.
Qed.

(** X11: In get_review_queue_stats the pending total equals the four
    tier counts plus the pending lesions assessed UNCERTAIN plus the
    pending lesions without an assessment. *)
Theorem queue_stats_partition (d : db) :
  let s := get_review_queue_stats d in
  total_pending s =
    (urgent_count s + high_priority_count s + medium_priority_count s
     + low_priority_count s + count_with_risk d UNCERTAIN
     + length (filter (fun r => ai_assessments d !! r.1 = None) (pending_query d)))%nat.
Proof.
  intros s. subst s. unfold get_review_queue_stats, count_with_risk. simpl.
  apply tier_partition.
Qed.

Lemma insert_upload_desc_perm (r : nat * lesion) (l : list (nat * lesion)) :
  insert_upload_desc r l ≡ₚ r :: l.
Proof.
  induction l as [|x xs IH]; simpl; [reflexivity|].
  destruct (upload_timestamp x.2 <=? upload_timestamp r.2)%nat; [reflexivity|].
  rewrite IH. apply perm_swap.
Qed.

Lemma sort_upload_desc_perm (l : list (nat * lesion)) : sort_upload_desc l ≡ₚ l.
Proof.
  induction l as [|x xs IH]; simpl; [reflexivity|].
  rewrite insert_upload_desc_perm, IH. reflexivity.
Qed.

Lemma insert_upload_desc_sorted (r : nat * lesion) (l : list (nat * lesion)) :
  Sorted upload_desc l -> Sorted upload_desc (insert_upload_desc r l).
Proof.
  induction l as [|x xs IH]; simpl; intros H; [constructor; constructor|].
  destruct (upload_timestamp x.2 <=? upload_timestamp r.2)%nat eqn:E.
  - constructor; [exact H|]. constructor. apply Nat.leb_le. exact E.
  - apply Sorted_inv in H as [Hs Hd]. constructor; [apply IH; exact Hs|].
    apply Nat.leb_gt in E. destruct xs as [|y ys]; simpl.
    + constructor. unfold upload_desc. lia.
    + destruct (upload_timestamp y.2 <=? upload_timestamp r.2)%nat;
        constructor; [unfold upload_desc; lia | inversion Hd; assumption].
Qed.

Lemma sort_upload_desc_sorted (l : list (nat * lesion)) :
  Sorted upload_desc (sort_upload_desc l).
Proof.
  induction l as [|x xs IH]; simpl; [constructor|].
  apply insert_upload_desc_sorted. exact IH.
Qed.

Lemma sort_upload_desc_strongly_sorted (l : list (nat * lesion)) :
  StronglySorted upload_desc (sort_upload_desc l).
Proof.
  apply Sorted_StronglySorted; [|apply sort_upload_desc_sorted].
  intros a b c Hab Hbc. unfold upload_desc in *. lia.
Qed.

(** In a strongly sorted list, an element of the prefix comes before
    each element of the rest. *)
Lemma strongly_sorted_take_drop {A} (R : A -> A -> Prop) (n : nat) (l : list A) :
  StronglySorted R l -> forall x y, In x (take n l) -> In y (drop n l) -> R x y.
Proof.
  revert l. induction n as [|n IH]; intros l Hs x y Hx Hy; [destruct l; contradiction|].
  destruct l as [|a l]; [contradiction|]. simpl in Hx, Hy.
  apply StronglySorted_inv in Hs as [Hs Hf].
  destruct Hx as [<-|Hx].
  - rewrite List.Forall_forall in Hf. apply Hf.
    rewrite <- (take_drop n l). apply in_or_app. right. exact Hy.
  - exact (IH l Hs x y Hx Hy).
Qed.

Lemma filter_all_true {A} (P : A -> Prop) `{!forall x, Decision (P x)} (l : list A) :
  (forall x, x ∈ l -> P x) -> filter P l = l.
Proof.
  induction l as [|x l IH]; intros Hall; [reflexivity|].
  rewrite filter_cons_True by (apply Hall; left).
  f_equal. apply IH. intros y Hy. apply Hall. right. exact Hy.
Qed.

(** X12: get_patient_lesion_history counts at most 100 of the patient's
    lesions, never more pending reviews than that, and at most as many
    high-risk lesions as the patient has (all of them when all are
    assessed HIGH or URGENT). Its recent list holds the patient's
    min(10, n) most recent lesions, newest first. *)
Theorem patient_lesion_history (patient_of : patient_column) (pid : nat) (d : db) :
  let h := get_patient_lesion_history patient_of pid d in
  let mine := filter (fun r => of_patient patient_of pid r = true)
                (map_to_list (lesions d)) in
  total_analyses h = Nat.min 100 (length mine) /\
  (lh_pending_reviews h <= total_analyses h)%nat /\
  (high_risk_count h <= length mine)%nat /\
  ((forall i l, lesions d !! i = Some l -> patient_of !! i = Some pid ->
      assessed_in d [HIGH; URGENT] i = true) ->
   high_risk_count h = length mine) /\
  length (recent_analyses h) = Nat.min 10 (length mine) /\
  Sorted (fun a b => (upload_timestamp b.2 <= upload_timestamp a.2)%nat)
    (recent_analyses h) /\
  (forall r, r ∈ recent_analyses h -> r ∈ mine) /\
  (forall r x, r ∈ mine -> r ∉ recent_analyses h -> x ∈ recent_analyses h ->
     (upload_timestamp r.2 <= upload_timestamp x.2)%nat).
Proof.
  intros h mine. subst h mine.
  unfold get_patient_lesion_history, get_patient_skin_lesions.
  cbn [total_analyses lh_pending_reviews high_risk_count recent_analyses].
  rewrite drop_0.
  set (mine := filter (fun r => of_patient patient_of pid r = true)
                 (map_to_list (lesions d))).
  split; [rewrite length_take; lia|].
  split; [apply length_filter|].
  split; [apply length_filter|].
  split.
  { intros Hall. f_equal. apply filter_all_true. intros [i l] Hin.
    subst mine. apply list_elem_of_filter in Hin as [Hp Hm].
    apply elem_of_map_to_list in Hm. unfold of_patient in Hp. simpl in Hp.
    apply bool_decide_eq_true in Hp. exact (Hall i l Hm Hp). }
  split; [rewrite length_take, (Permutation_length (sort_upload_desc_perm mine)); lia|].
  split.
  { pose proof (sort_upload_desc_strongly_sorted mine) as Hs.
    apply StronglySorted_Sorted.
    rewrite <- (take_drop 10 (sort_upload_desc mine)) in Hs.
    clear -Hs. induction (take 10 (sort_upload_desc mine)) as [|a t IH]; [constructor|].
    simpl in Hs. apply StronglySorted_inv in Hs as [Hs Hf].
    constructor; [apply IH; exact Hs|]. apply List.Forall_forall. intros y Hy.
    rewrite List.Forall_forall in Hf. apply Hf. apply in_or_app. left. exact Hy. }
  split.
  { intros r Hr. rewrite <- (sort_upload_desc_perm mine).
    exact (elem_of_take_sub _ _ _ Hr). }
  intros r x Hr Hnr Hx.
  assert (Hd : r ∈ drop 10 (sort_upload_desc mine)).
  { rewrite <- (sort_upload_desc_perm mine), <- (take_drop 10 (sort_upload_desc mine)) in Hr.
    apply elem_of_app in Hr as [Hr|Hr]; [contradiction|exact Hr]. }
  apply list_elem_of_In in Hd, Hx.
  exact (strongly_sorted_take_drop _ 10 _ (sort_upload_desc_strongly_sorted mine) x r Hx Hd).
Qed.

Lemma length_filter_perm {A} (P : A -> Prop) `{!forall x, Decision (P x)} (l k : list A) :
  l ≡ₚ k -> length (filter P l) = length (filter P k).
Proof. intros Hp. apply Permutation_length. rewrite Hp. reflexivity. Qed.

(** Replacing the row of one key changes a filtered count by the
    difference of that row's two tests. *)
Lemma filter_count_insert (P : nat * lesion -> bool) (m : gmap nat lesion)
    (i : nat) (l l' : lesion) :
  m !! i = Some l ->
  (length (filter (fun r => P r = true) (map_to_list (<[i:=l']> m)))
   + (if P (i, l) then 1 else 0)
   = length (filter (fun r => P r = true) (map_to_list m))
     + (if P (i, l') then 1 else 0))%nat.
Proof.
  intros Hl.
  pose proof (map_to_list_delete m i l Hl) as Hdel.
  assert (Hins : map_to_list (<[i:=l']> m) ≡ₚ (i, l') :: map_to_list (delete i m)).
  { rewrite <- insert_delete_eq. apply map_to_list_insert. apply lookup_delete_eq. }
  rewrite (length_filter_perm _ _ _ Hins), <- (length_filter_perm _ _ _ Hdel).
  rewrite !filter_cons.
  destruct (P (i, l)) eqn:E1, (P (i, l')) eqn:E2;
    rewrite ?decide_True by reflexivity; rewrite ?decide_False by discriminate;
    simpl; lia.
Qed.

Lemma filter_andb_le {A} (P Q : A -> bool) (l : list A) :
  (length (filter (fun r => P r && Q r = true) l)
   <= length (filter (fun r => P r = true) l))%nat.
Proof.
  induction l as [|x l IH]; [reflexivity|]. rewrite !filter_cons.
  destruct (P x), (Q x); simpl;
    rewrite ?decide_True by reflexivity; rewrite ?decide_False by discriminate;
    simpl; lia.
Qed.

(** X13: Submitting a cadre review of a pending, unreviewed lesion
    lowers the community pending count by one, and lowers the urgent
    count by one if the lesion is assessed URGENT or HIGH (else leaves
    it). The completed-review count seen by a cadre goes up by one if
    that cadre submitted the review and is unchanged otherwise; the
    urgent count never exceeds the pending count. *)
Theorem community_stats_after_review (d : db) (i : nat) (l : lesion)
    (rd : cadre_review_create) (u v : nat) :
  lesions d !! i = Some l -> status l = "pending" -> reviewed_by_cadre l = None ->
  let s := get_community_stats v d in
  let s' := get_community_stats v (snd (Routers.submit_cadre_review i rd u d)) in
  (urgentCases s <= totalPendingReviews s)%nat /\
  totalPendingReviews s' + 1 = totalPendingReviews s /\
  urgentCases s' + (if assessed_in d [URGENT; HIGH] i then 1 else 0) = urgentCases s /\
  completedReviews s' = completedReviews s + (if Nat.eqb u v then 1 else 0).
Proof.
  intros Hl Hst Hrc s s'. subst s s'.
  unfold Routers.submit_cadre_review. rewrite Hl, Hst. simpl.
  unfold Routers.cadre_review_write, get_community_stats.
  cbn [totalPendingReviews urgentCases completedReviews lesions cadre_reviews snd].
  set (l' := if rc_escalate_to_doctor rd
             then set_needs_professional_review true
                    (set_status "escalated" (set_reviewed_by_cadre u l))
             else set_status "reviewed" (set_reviewed_by_cadre u l)).
  assert (Hl' : pending_unclaimed l' = false).
  { unfold pending_unclaimed. subst l'. destruct (rc_escalate_to_doctor rd);
      apply andb_false_r. }
  assert (Hpu : pending_unclaimed l = true).
  { unfold pending_unclaimed, unreviewed. rewrite Hst, Hrc. reflexivity. }
  match goal with
  | |- context [assessed_in (mk_db ?m (ai_assessments d) ?c ?dc) [URGENT; HIGH]] =>
      change (assessed_in (mk_db m (ai_assessments d) c dc) [URGENT; HIGH])
        with (assessed_in d [URGENT; HIGH])
  end.
  pose proof (filter_count_insert (fun r => pending_unclaimed r.2) (lesions d) i l l' Hl)
    as C1.
  pose proof (filter_count_insert
                (fun r => pending_unclaimed r.2 && assessed_in d [URGENT; HIGH] r.1)
                (lesions d) i l l' Hl) as C2.
  cbv beta in C1, C2. cbn [fst snd] in C1, C2. rewrite Hpu, Hl' in C1, C2.
  simpl in C1, C2.
  split; [|split; [lia|split]].
  - apply (filter_andb_le (fun r => pending_unclaimed r.2)
             (fun r => assessed_in d [URGENT; HIGH] r.1)).
  - destruct (assessed_in d [URGENT; HIGH] i); lia.
  - rewrite filter_app, length_app. simpl.
    destruct (Nat.eqb_spec u v) as [->|Hne];
    [rewrite filter_cons_True by reflexivity | rewrite filter_cons_False by (simpl; lia)];
    simpl; lia.
Qed.

(** X14: calculate_age returns None without a birth date and otherwise
    the year difference or one less, the year difference when month and
    day match. It is non-negative when the birth date is not after
    today, and it never decreases as today advances. *)
Theorem calculate_age_props (today b : date) :
  calculate_age today None = None /\
  exists age, calculate_age today (Some b) = Some age /\
    (age = year today - year b \/ age = year today - year b - 1)%Z /\
    (month today = month b -> day today = day b -> age = year today - year b)%Z /\
    (date_le b today -> 0 <= age)%Z /\
    (forall today', date_le today today' ->
       exists age', calculate_age today' (Some b) = Some age' /\ (age <= age')%Z).
Proof.
  split; [reflexivity|]. unfold calculate_age, tuple_lt. simpl.
  eexists. split; [reflexivity|].
  split; [destruct (_ || _); lia|].
  split.
  { intros Hm Hd. rewrite Hm, Hd, Z.ltb_irrefl, Z.eqb_refl, Z.ltb_irrefl. simpl. lia. }
  split.
  - unfold date_le. intros H.
    destruct (Z.ltb_spec (month today) (month b)), (Z.eqb_spec (month today) (month b)),
      (Z.ltb_spec (day today) (day b)); simpl; lia.
  - intros t' H. eexists. split; [reflexivity|]. unfold date_le in H.
    destruct (Z.ltb_spec (month today) (month b)), (Z.eqb_spec (month today) (month b)),
      (Z.ltb_spec (day today) (day b)),
      (Z.ltb_spec (month t') (month b)), (Z.eqb_spec (month t') (month b)),
      (Z.ltb_spec (day t') (day b)); simpl; lia.
Qed.

End QueryExtraProofs.

Module HistoryExtraProofs.

Import ModelConfig Db Crud Scenarios.

Import Queries History QueryExtraProofs.

(** No [AIAssessment] row has [needs_professional_review]: the loop
    fails at the first assessed lesion. *)
Lemma format_analyses_fails (patient_of : patient_column)
    (confidence_parses : nat -> bool)
    (assessed : list (nat * lesion * ai_assessment)) :
  format_analyses patient_of confidence_parses assessed
  = match assessed with [] => Some [] | _ :: _ => None end.
Proof.
  destruct assessed as [|[[i l] a] rest]; simpl; [reflexivity|].
  unfold analysis_data_of. destruct (confidence_parses i); reflexivity.
Qed.

(** X15: get_analysis_history answers 500 (None) exactly when some
    lesion visible to the caller (all lesions, or the patient's own for a
    PATIENT) has an assessment: reading needs_professional_review, which
    AIAssessment lacks, raises. Otherwise it answers an empty list with
    total_count 0. *)
Theorem analysis_history_props (patient_of : patient_column)
    (confidence_parses : nat -> bool) (role : user_role) (user_id : nat) (d : db) :
  (get_analysis_history patient_of confidence_parses role user_id d = None <->
   exists i l a, lesions d !! i = Some l /\ ai_assessments d !! i = Some a /\
     (role = PATIENT -> patient_of !! i = Some user_id)) /\
  (forall es n,
   get_analysis_history patient_of confidence_parses role user_id d = Some (es, n) ->
   es = [] /\ n = 0).
Proof.
  unfold get_analysis_history.
  set (rows := match role with
               | PATIENT => filter (fun r => of_patient patient_of user_id r = true)
                              (map_to_list (lesions d))
               | _ => map_to_list (lesions d)
               end).
  assert (Hrows : forall i l, (i, l) ∈ rows <->
            lesions d !! i = Some l /\ (role = PATIENT -> patient_of !! i = Some user_id)).
  { intros i l. subst rows. destruct role;
      rewrite ?list_elem_of_filter, elem_of_map_to_list; unfold of_patient; simpl;
      rewrite ?bool_decide_eq_true; intuition congruence. }
  clearbody rows.
  set (assessed := omap (fun r => (fun a => (r, a)) <$> ai_assessments d !! r.1)
                     (sort_upload_desc rows)).
  assert (Hass : forall i l a, ((i, l), a) ∈ assessed <->
            (i, l) ∈ rows /\ ai_assessments d !! i = Some a).
  { intros i l a. subst assessed. rewrite list_elem_of_omap.
    split.
    - intros [[i' l'] [Hin Hf]]. simpl in Hf.
      destruct (ai_assessments d !! i') eqn:E; [|discriminate].
      injection Hf as <- <- <-. split; [|exact E].
      rewrite <- (sort_upload_desc_perm rows). exact Hin.
    - intros [Hin Ha]. exists (i, l). split.
      + rewrite (sort_upload_desc_perm rows). exact Hin.
      + simpl. rewrite Ha. reflexivity. }
  clearbody assessed.
  rewrite format_analyses_fails.
  destruct assessed as [|[[i l] a] rest].
  - split.
    + split; [discriminate|]. intros [i [l [a [Hl [Ha Hp]]]]].
      assert (Hin : ((i, l), a) ∈ ([] : list (nat * lesion * ai_assessment)))
        by (apply Hass; split; [apply Hrows; auto | exact Ha]).
      inversion Hin.
    + intros es n H. injection H as <- <-. split; reflexivity.
  - split.
    + split; [intros _|reflexivity].
      assert (Hin : ((i, l), a) ∈ ((i, l, a) :: rest)) by apply list_elem_of_here.
      apply Hass in Hin as [Hr Ha]. apply Hrows in Hr as [Hl Hp].
      exists i, l, a. auto.
    + intros es n H. discriminate.
Qed.

End HistoryExtraProofs.

Module ClassifierExtraProofs.

Import ModelConfig Db Crud Scenarios.

Import Classifier ExtraLemmas.

(** X16: For a catalog label the classifier's recommendations start with
    the label's four RECOMMENDATIONS entries and carry the low-
    confidence warning exactly when the confidence is below 0.6. The
    warning comes without a professional-review request exactly for ACK,
    NEV or SEK with confidence in [0.5, 0.6); without that request no
    cadre review is asked, and a high-risk region adds the high-
    visibility note naming the region. *)
Theorem classifier_low_confidence_advice (label : string) (c : Q)
    (region : option string) :
  In label (map fst RISK_LEVELS) ->
  let a := analyze_top_prediction label c region in
  firstn 4 (an_recommendations a) = dict_get label RECOMMENDATIONS [] /\
  (In "âš ï¸ Low confidence prediction - professional review strongly recommended" (an_recommendations a) <-> (c < MEDIUM_CONFIDENCE)%Q) /\
  (In "âš ï¸ Low confidence prediction - professional review strongly recommended" (an_recommendations a) /\ an_needs_professional_review a = false <->
   In label ["ACK (Actinic keratoses)"; "NEV (Nevus/Mole)"; "SEK (Seborrheic keratosis)"] /\
   (professional_review_threshold <= c)%Q /\ (c < MEDIUM_CONFIDENCE)%Q) /\
  (an_needs_professional_review a = false -> needs_cadre_review (an_workflow a) = false) /\
  (forall s, region = Some s -> ModelConfig.in_high_risk_region region = true ->
     In ("ðŸ“ Lesion in high-visibility area (" ++ s ++ ") - consider aesthetic concerns") (an_recommendations a)).
Proof.
  intros Hl a. subst a.
  unfold analyze_top_prediction, get_recommendations, ModelConfig.needs_professional_review.
  cbn [an_recommendations an_needs_professional_review an_workflow needs_cadre_review].
  destruct region as [s|].
  - destruct (ModelConfig.in_high_risk_region (Some s)) eqn:Er;
    catalog Hl; simpl; split_Qltb; simpl; thresholds;
      (split; [reflexivity|]);
      repeat split; intros; simpl in *;
      intuition (first [discriminate | reflexivity | lra | (exfalso; lra) | congruence | auto 10]).
  - catalog Hl; simpl; split_Qltb; simpl; thresholds;
      (split; [reflexivity|]);
      repeat split; intros; simpl in *;
      intuition (first [discriminate | reflexivity | lra | (exfalso; lra) | congruence | auto 10]).
Qed.

End ClassifierExtraProofs.

Module ImageExtraProofs.

Import ModelConfig Db Crud Scenarios.

Import ImageProcessing ExtraLemmas.

Lemma avg_bounds (p : Z) (ps : list Z) :
  let n := Z.of_nat (length (p :: ps)) in
  (Py.Qltb (Qmake (sum_Z (p :: ps)) (Pos.of_nat (length (p :: ps)))) 10 = false <->
   (10 * n <= sum_Z (p :: ps))%Z) /\
  (Py.Qltb 245 (Qmake (sum_Z (p :: ps)) (Pos.of_nat (length (p :: ps)))) = false <->
   (sum_Z (p :: ps) <= 245 * n)%Z).
Proof.
  intros n. subst n. rewrite !RiskProofs.Qltb_false. unfold Qle. cbn [Qnum Qden length].
  rewrite <- Pos.of_nat_succ, Zpos_P_of_succ_nat, Nat2Z.inj_succ.
  split; lia.
Qed.

(** X17: validate_image accepts an image exactly when its mode is RGB,
    RGBA, L or P, both sides are between 50 and 4096, its format is
    absent, empty, JPEG, PNG or JPG, and its mean gray level is between
    10 and 245 (or it has no pixels). Every other image is rejected with
    a message. *)
Theorem validate_image_accepts (img : image) :
  (validate_image img = (true, None) <->
   In (mode img) ["RGB"; "RGBA"; "L"; "P"] /\
   (50 <= width img <= 4096)%Z /\ (50 <= height img <= 4096)%Z /\
   (forall f, format img = Some f -> f = "" \/ In f ["JPEG"; "PNG"; "JPG"]) /\
   (gray_pixels img = [] \/
    (10 * Z.of_nat (length (gray_pixels img)) <= sum_Z (gray_pixels img)
     <= 245 * Z.of_nat (length (gray_pixels img)))%Z)) /\
  (validate_image img = (true, None) \/
   exists msg, validate_image img = (false, Some msg)).
Proof.
  unfold validate_image.
  destruct (existsb (String.eqb (mode img)) ["RGB"; "RGBA"; "L"; "P"]) eqn:Em;
    [apply existsb_eqb_In in Em | apply not_true_iff_false in Em; rewrite existsb_eqb_In in Em];
    cbn [negb];
    [|split; [split; [discriminate|tauto]|eauto]].
  destruct (Z.ltb_spec (width img) 50) as [Hw1|Hw1], (Z.ltb_spec (height img) 50) as [Hh1|Hh1];
    cbn [orb];
    try (split; [split; [discriminate|lia]|eauto]).
  destruct (Z.ltb_spec 4096 (width img)) as [Hw2|Hw2], (Z.ltb_spec 4096 (height img)) as [Hh2|Hh2];
    cbn [orb];
    try (split; [split; [discriminate|lia]|eauto]).
  assert (Hfmt : Py.truthy (format img)
                 && negb (match format img with
                          | Some f => existsb (String.eqb f) ["JPEG"; "PNG"; "JPG"]
                          | None => false
                          end) = false <->
                 (forall f, format img = Some f -> f = "" \/ In f ["JPEG"; "PNG"; "JPG"])).
  { unfold Py.truthy. destruct (format img) as [f|].
    - destruct (String.eqb_spec f "") as [->|Hne]; cbn [negb andb].
      + split; [intros _ f' Hf; injection Hf as <-; left; reflexivity|reflexivity].
      + rewrite negb_false_iff, existsb_eqb_In. split.
        * intros Hx f' Hf. injection Hf as <-. right. exact Hx.
        * intros Hx. destruct (Hx f eq_refl) as [->|Hin]; [congruence|exact Hin].
    - simpl. split; [intros _ f' Hf; discriminate|reflexivity]. }
  destruct (Py.truthy (format img) && _) eqn:Ef.
  { split; [split; [discriminate|]|eauto].
    intros (_ & _ & _ & Hf & _). apply Hfmt in Hf. discriminate. }
  pose proof (proj1 Hfmt eq_refl) as Hfm. clear Hfmt.
  destruct (gray_pixels img) as [|p ps] eqn:Ep.
  { split; [split; [intros _; repeat split; auto; lia|reflexivity]|auto]. }
  destruct (avg_bounds p ps) as [Hlo Hhi].
  destruct (Py.Qltb (Qmake (sum_Z (p :: ps)) (Pos.of_nat (length (p :: ps)))) 10) eqn:E1.
  { split; [split; [discriminate|]|eauto].
    intros (_ & _ & _ & _ & [Hx|Hx]); [discriminate|].
    assert (Hc : true = false) by (apply Hlo; lia). discriminate. }
  destruct (Py.Qltb 245 (Qmake (sum_Z (p :: ps)) (Pos.of_nat (length (p :: ps))))) eqn:E2.
  { split; [split; [discriminate|]|eauto].
    intros (_ & _ & _ & _ & [Hx|Hx]); [discriminate|].
    assert (Hc : true = false) by (apply Hhi; lia). discriminate. }
  pose proof (proj1 Hlo eq_refl). pose proof (proj1 Hhi eq_refl).
  split; [split; [intros _; repeat split; auto; lia|reflexivity]|auto].
Qed.

End ImageExtraProofs.


Module Witnesses.

Import PredictionService Routers.

Lemma confidence_gate_uncertain_witness :
  get_risk_level "MEL (Melanoma)" (35 # 100) (Some "face") = UNCERTAIN /\
  risk_level (assess_risk "MEL (Melanoma)" (35 # 100) (Some "face")) = UNCERTAIN /\
  PredictionService.needs_professional_review
    (assess_risk "MEL (Melanoma)" (35 # 100) (Some "face")) = true /\
  ModelConfig.needs_professional_review "MEL (Melanoma)" (35 # 100) = true.
Proof.
  apply (RiskProofs.confidence_gate_uncertain "MEL (Melanoma)" (35 # 100) (Some "face")).
  - simpl. auto 10.
  - vm_compute. discriminate.
  - reflexivity.
Defined.

Lemma submit_cadre_review_guarded_witness :
  lesions db_one_pending !! 1 = Some pending_lesion /\
  fst (submit_cadre_review 1 review_escalate 5 db_one_pending)
    = Review_submitted "escalated" true /\
  status_of 1 (snd (submit_cadre_review 1 review_escalate 5 db_one_pending))
    = Some "escalated".
Proof.
  destruct (proj1 LifecycleProofs.submit_cadre_review_guarded
              db_one_pending 1 pending_lesion review_escalate 5
              eq_refl eq_refl eq_refl) as [H1 [H2 _]].
  split; [reflexivity | split; [exact H1 | exact H2]].
Defined.

Lemma status_transitions_witness :
  status_of 1 (snd (update_skin_lesion_status 1 "pending" None db_one_completed))
    = Some "pending".
Proof.
  apply (proj2 (proj2 (proj2 LifecycleProofs.status_transitions))
           1 "pending" None db_one_completed).
  eexists. reflexivity.
Defined.

Lemma region_escalation_by_engine_witness :
  get_risk_level "ACK (Actinic keratoses)" (9 # 10) (Some "face") = HIGH /\
  risk_level (assess_risk "ACK (Actinic keratoses)" (9 # 10) (Some "face")) = MEDIUM.
Proof.
  destruct (RiskProofs.region_escalation_by_engine
              "ACK (Actinic keratoses)" (9 # 10) "face") as [_ [H _]].
  - simpl. auto 10.
  - vm_compute. discriminate.
  - simpl. auto 10.
  - apply H. reflexivity.
Defined.

Lemma engines_total_with_fallbacks_witness :
  get_risk_level "XYZ" (9 # 10) (Some "face") = UNCERTAIN.
Proof.
  apply (proj1 RiskProofs.engines_total_with_fallbacks "XYZ" (9 # 10) (Some "face")).
  - simpl. intros H. repeat destruct H as [H|H]; try discriminate. exact H.
  - reflexivity.
Defined.

Lemma follow_up_days_by_final_tier_witness :
  History.get_analysis_history ∅ (fun _ => true) History.DOCTOR 3 empty_db
    = Some ([], 0) /\ ([] : list History.history_entry) = [].
Proof.
  split; [reflexivity|].
  apply (proj2 RiskProofs.follow_up_days_by_final_tier ∅ (fun _ => true)
           History.DOCTOR 3 empty_db [] 0).
  reflexivity.
Defined.

Lemma racing_cadre_reviews_witness :
  count_reviews 1
    (interleave [true; false; true; false] (mk_request 1 review_plain 5)
       (mk_request 1 review_escalate 6) Start Start db_one_pending).2 = 2 /\
  status_of 1
    (interleave [true; false; true; false] (mk_request 1 review_plain 5)
       (mk_request 1 review_escalate 6) Start Start db_one_pending).2
    = Some "escalated".
Proof.
  destruct (RaceProofs.racing_cadre_reviews db_one_pending 1 pending_lesion
              review_plain review_escalate 5 6 eq_refl eq_refl)
    as [_ [_ [H3 [H4 _]]]].
  split; [exact H3 | exact H4].
Defined.

Lemma engines_agree_except_medium_in_region_witness :
  get_risk_level "ACK (Actinic keratoses)" (9 # 10) (Some "face") = HIGH /\
  risk_level (assess_risk "ACK (Actinic keratoses)" (9 # 10) (Some "face")) = MEDIUM.
Proof.
  destruct (RiskProofs.engines_agree_except_medium_in_region
              "ACK (Actinic keratoses)" (9 # 10) (Some "face")) as [_ H].
  - simpl. auto 10.
  - vm_compute. discriminate.
  - vm_compute. discriminate.
  - apply H; [reflexivity | reflexivity | vm_compute; discriminate].
Defined.

End Witnesses.

(** ** Concrete instances of the properties of the extended model *)
Module ExtraWitnesses.

Import ModelConfig Db Crud Scenarios PredictionService Classifier LesionService
  Predictor ImageProcessing Queries History.

Lemma confidence_levels_consistent_witness :
  (1 # 10 <= 7 # 10)%Q /\
  (confidence_rank (Classifier.get_confidence_level (1 # 10))
   <= confidence_rank (Classifier.get_confidence_level (7 # 10)))%nat.
Proof.
  split; [vm_compute; discriminate|].
  apply (proj1 (proj2 EngineExtraProofs.confidence_levels_consistent)).
  vm_compute. discriminate.
Defined.

Lemma review_flags_compared_witness :
  In "ACK (Actinic keratoses)" (map fst RISK_LEVELS) /\
  PredictionService.needs_professional_review
    (assess_risk "ACK (Actinic keratoses)" (55 # 100) None) = true /\
  ModelConfig.needs_professional_review "ACK (Actinic keratoses)" (55 # 100) = false.
Proof.
  assert (Hl : In "ACK (Actinic keratoses)" (map fst RISK_LEVELS)) by (simpl; auto 10).
  split; [exact Hl|].
  apply (proj2 (EngineExtraProofs.review_flags_compared _ (55 # 100) None Hl)).
  split; [simpl; auto 10|].
  split; [vm_compute; discriminate | left; reflexivity].
Defined.

Lemma analyze_lesion_workflow_witness :
  In "ACK (Actinic keratoses)" (map fst RISK_LEVELS) /\
  needs_doctor_review
    (an_workflow (analyze_top_prediction "ACK (Actinic keratoses)" (9 # 10) (Some "face")))
    = true /\
  needs_cadre_review
    (an_workflow (analyze_top_prediction "ACK (Actinic keratoses)" (9 # 10) (Some "face")))
    = false.
Proof.
  assert (Hl : In "ACK (Actinic keratoses)" (map fst RISK_LEVELS)) by (simpl; auto 10).
  split; [exact Hl|].
  apply (proj2 (proj2 (EngineExtraProofs.analyze_lesion_workflow _ (9 # 10) (Some "face") Hl))).
  split; [reflexivity | split; [reflexivity | vm_compute; discriminate]].
Defined.

Lemma recommendations_shape_witness :
  length (generate_recommendations
            (assess_risk "NEV (Nevus/Mole)" (9 # 10) (Some "Face")) (Some "Face")) = 8 /\
  ModelConfig.in_high_risk_region (Some "Face") = true.
Proof.
  assert (H8 : length (generate_recommendations
            (assess_risk "NEV (Nevus/Mole)" (9 # 10) (Some "Face")) (Some "Face")) = 8)
    by (vm_compute; reflexivity).
  split; [exact H8|].
  exact (proj2 (proj2 (proj2 (PredictorExtraProofs.recommendations_shape
           (assess_risk "NEV (Nevus/Mole)" (9 # 10) (Some "Face")) (Some "Face")))) H8).
Defined.

Lemma predict_ranking_witness :
  exists preds top,
    predict [1 # 10; 7 # 10; 2 # 10] = Predicted preds top /\
    hd_error preds = Some top /\ label top = "BCC (Basal cell carcinoma)" /\
    Permutation preds (enumerate_results 0 [1 # 10; 7 # 10; 2 # 10]).
Proof.
  destruct (predict [1 # 10; 7 # 10; 2 # 10]) as [preds top|] eqn:Ep;
    [|vm_compute in Ep; discriminate].
  destruct (proj2 (proj2 (PredictorExtraProofs.predict_ranking
              [1 # 10; 7 # 10; 2 # 10])) preds top Ep) as [Hp [_ [Hh _]]].
  exists preds, top. split; [reflexivity|]. split; [exact Hh|]. split; [|exact Hp].
  vm_compute in Ep. injection Ep as _ <-. reflexivity.
Defined.

Lemma analyze_skin_lesion_flags_witness :
  ar_success (analyze_skin_lesion true true [1 # 10; 1 # 10; 7 # 10; 1 # 10] None) = true /\
  ar_needs_doctor_review
    (analyze_skin_lesion true true [1 # 10; 1 # 10; 7 # 10; 1 # 10] None) = true /\
  ar_summary (analyze_skin_lesion false true [1 # 10; 1 # 10; 7 # 10; 1 # 10] None) = None.
Proof.
  destruct (predict [1 # 10; 1 # 10; 7 # 10; 1 # 10]) as [preds top|] eqn:Ep;
    [|vm_compute in Ep; discriminate].
  destruct (ServiceExtraProofs.analyze_skin_lesion_flags true true
              [1 # 10; 1 # 10; 7 # 10; 1 # 10] None) as [Hs [_ Hd]].
  assert (Hok : ar_success (analyze_skin_lesion true true
                  [1 # 10; 1 # 10; 7 # 10; 1 # 10] None) = true).
  { apply Hs. split; [reflexivity | split; [reflexivity | discriminate]]. }
  split; [exact Hok|]. split.
  - apply (proj1 (Hd preds top Hok Ep)).
    vm_compute in Ep. injection Ep as _ <-.
    split; [reflexivity | vm_compute; discriminate].
  - apply (proj1 (proj1 (proj2 (ServiceExtraProofs.analyze_skin_lesion_flags false true
              [1 # 10; 1 # 10; 7 # 10; 1 # 10] None)) eq_refl)).
Defined.

Lemma upload_outcomes_witness :
  upload_and_analyze_lesion (Some "text/plain") true true true [1 # 2; 1 # 2] None
    = Upload_error 400.
Proof.
  apply (proj2 (proj1 (ServiceExtraProofs.upload_outcomes (Some "text/plain")
           true true true [1 # 2; 1 # 2] None))).
  exists "text/plain". split; reflexivity.
Defined.

Lemma upload_display_witness :
  exists dd cadre doctor,
    upload_and_analyze_lesion (Some "image/png") true true true
      [1 # 10; 1 # 10; 7 # 10; 1 # 10] (Some "face") = Upload_ok dd cadre doctor /\
    dd_body_region dd = Some "face" /\ doctor = true /\
    rd_level (dd_risk_assessment dd) = URGENT.
Proof.
  destruct (upload_and_analyze_lesion (Some "image/png") true true true
      [1 # 10; 1 # 10; 7 # 10; 1 # 10] (Some "face")) as [dd cadre doctor|code] eqn:Eu;
    [|vm_compute in Eu; discriminate].
  destruct (predict [1 # 10; 1 # 10; 7 # 10; 1 # 10]) as [preds top|] eqn:Ep;
    [|vm_compute in Ep; discriminate].
  destruct (ServiceExtraProofs.upload_display _ _ _ _ _ _ dd cadre doctor preds top Eu Ep)
    as [_ [_ [_ [Hl [_ [_ [_ [Hd Hb]]]]]]]].
  exists dd, cadre, doctor. split; [reflexivity|]. split; [exact Hb|].
  vm_compute in Ep. injection Ep as _ <-.
  rewrite Hd, Hl. split; vm_compute; reflexivity.
Defined.

Lemma confidence_bar_shape_witness :
  create_confidence_bar 50 = (repeat FULL_BLOCK 10 ++ repeat LIGHT_SHADE 10)%list /\
  (20 < length (create_confidence_bar 110))%nat.
Proof.
  split.
  - rewrite (proj1 (proj2 (BarProofs.confidence_bar_shape 50))) by (vm_compute; discriminate).
    reflexivity.
  - refine (proj2 (proj1 (proj2 (proj2 (BarProofs.confidence_bar_shape 110))) _)).
    vm_compute. discriminate.
Defined.

Lemma crud_pending_reviews_witness :
  (1, mk_lesion 1 None true None None "pending")
    ∈ Queries.get_pending_reviews None 0 5
        (mk_db {[1 := mk_lesion 1 None true None None "pending"]} ∅ [] []).
Proof.
  apply (proj2 (proj2 (proj2 (QueryExtraProofs.crud_pending_reviews None 0 5
           (mk_db {[1 := mk_lesion 1 None true None None "pending"]} ∅ [] []))))).
  - vm_compute. lia.
  - split; [reflexivity | split; reflexivity].
Defined.

Lemma patient_lesion_history_witness :
  high_risk_count (get_patient_lesion_history {[1 := 7]} 7 (db_two_assessed HIGH LOW)) = 1.
Proof.
  rewrite (proj1 (proj2 (proj2 (proj2 (QueryExtraProofs.patient_lesion_history
           {[1 := 7]} 7 (db_two_assessed HIGH LOW)))))).
  - vm_compute. reflexivity.
  - intros i l _ Hp. apply lookup_singleton_Some in Hp as [<- _]. reflexivity.
Defined.

Lemma community_stats_after_review_witness :
  totalPendingReviews
    (get_community_stats 5 (snd (Routers.submit_cadre_review 1 review_plain 5
       (db_two_assessed URGENT LOW)))) + 1
  = totalPendingReviews (get_community_stats 5 (db_two_assessed URGENT LOW)) /\
  completedReviews
    (get_community_stats 5 (snd (Routers.submit_cadre_review 1 review_plain 5
       (db_two_assessed URGENT LOW))))
  = completedReviews (get_community_stats 5 (db_two_assessed URGENT LOW)) + 1.
Proof.
  destruct (QueryExtraProofs.community_stats_after_review (db_two_assessed URGENT LOW)
              1 pending_lesion review_plain 5 5 eq_refl eq_refl eq_refl)
    as [_ [H2 [_ H4]]].
  split; [exact H2 | exact H4].
Defined.

Lemma calculate_age_props_witness :
  exists age,
    calculate_age (mk_date 2026 10 19) (Some (mk_date 2000 12 1)) = Some age /\
    (0 <= age)%Z.
Proof.
  destruct (QueryExtraProofs.calculate_age_props (mk_date 2026 10 19) (mk_date 2000 12 1))
    as [_ [age [Ha [_ [_ [H0 _]]]]]].
  exists age. split; [exact Ha|]. apply H0.
  unfold date_le. simpl. lia.
Defined.

Lemma analysis_history_props_witness :
  get_analysis_history ∅ (fun _ => true) DOCTOR 3 (db_two_assessed HIGH LOW) = None /\
  ([] : list history_entry) = [] /\ 0 = 0.
Proof.
  split.
  - apply (proj2 (proj1 (HistoryExtraProofs.analysis_history_props ∅ (fun _ => true)
             DOCTOR 3 (db_two_assessed HIGH LOW)))).
    exists 1, pending_lesion, (mk_ai_assessment HIGH 1).
    split; [reflexivity|]. split; [reflexivity|]. intros H. discriminate.
  - apply (proj2 (HistoryExtraProofs.analysis_history_props ∅ (fun _ => true)
             DOCTOR 3 empty_db) [] 0).
    reflexivity.
Defined.

Lemma classifier_low_confidence_advice_witness :
  In "NEV (Nevus/Mole)" (map fst RISK_LEVELS) /\
  In "âš ï¸ Low confidence prediction - professional review strongly recommended"
    (an_recommendations (analyze_top_prediction "NEV (Nevus/Mole)" (55 # 100) None)).
Proof.
  assert (Hl : In "NEV (Nevus/Mole)" (map fst RISK_LEVELS)) by (simpl; auto 10).
  split; [exact Hl|].
  apply (proj2 (proj1 (proj2 (ClassifierExtraProofs.classifier_low_confidence_advice
           _ (55 # 100) None Hl)))).
  reflexivity.
Defined.

Lemma validate_image_accepts_witness :
  validate_image (mk_image "RGB" 100 100 (Some "PNG") [128%Z]) = (true, None).
Proof.
  apply (proj2 (proj1 (ImageExtraProofs.validate_image_accepts
           (mk_image "RGB" 100 100 (Some "PNG") [128%Z])))).
  simpl. split; [auto 10|]. split; [lia|]. split; [lia|]. split.
  - intros f Hf. injection Hf as <-. right. simpl. auto.
  - right. simpl. lia.
Defined.

End ExtraWitnesses.
